(** * ScamGuard scan engine: the scoring and merging scaffold of [engine.ts]

    A shallow embedding of the three scan entry points of [engine.ts]
    ([analyzeText], [analyzeLink], [analyzeForensics]) and the properties
    of their scores, reasons, advice and risk levels.

    Modelling conventions.
    - Scores are JavaScript numbers that the response schemas declare as
      [Type.INTEGER]; they are embedded as [Z].  Image dimensions are pixel
      counts, integers that a double holds exactly ([Z]).  The ratio of an
      image, the accepted ratios and their difference are binary64 values,
      computed with the rounding of IEEE 754 (to nearest, ties to even).
      GPS coordinates are the exact values of their doubles ([Q]).
    - A JavaScript string is a Rocq [string], read as a sequence of code
      units below 256.
    - An optional property of an object is an [option]: [None] is
      [undefined].
    - The remote model is an input of the entry point: what the [await]ed
      call followed by [JSON.parse] produced, either a rejection or a reply
      whose fields are all optional (the schema is requested, not
      guaranteed).
    - A [throw] that leaves a function is the [Throw] outcome. *)

From Stdlib Require Import ZArith QArith Qround Qabs Qpower List String Ascii Bool Lia.
From Stdlib Require Import DecimalString Lqa.
Import ListNotations.
Open Scope string_scope.
Open Scope Z_scope.

(** ** Outcomes of a call: a value, or a thrown error *)

Inductive JsError : Type :=
| TypeError (msg : string).

Inductive Outcome (A : Type) : Type :=
| Ok (a : A)
| Throw (e : JsError).
Arguments Ok {A} a.
Arguments Throw {A} e.

Definition bind {A B} (c : Outcome A) (k : A -> Outcome B) : Outcome B :=
  match c with
  | Ok a => k a
  | Throw e => Throw e
  end.

Notation "x <- c ;; k" := (bind c (fun x => k))
  (at level 61, c at next level, right associativity).

(** ** JavaScript truthiness and [||] on the value types that occur *)

Definition truthy_bool (b : option bool) : bool :=
  match b with Some true => true | _ => false end.

Definition truthy_str (s : option string) : bool :=
  match s with
  | Some EmptyString => false
  | Some _ => true
  | None => false
  end.

(** [v || 0] for an optional integer: [undefined] and [0] are falsy. *)
Definition or_zero (v : option Z) : Z :=
  match v with Some z => z | None => 0 end.

(** [v || dflt] for an optional string: [undefined] and [""] are falsy. *)
Definition or_str (v : option string) (dflt : string) : string :=
  if truthy_str v then match v with Some s => s | None => dflt end else dflt.

(** [v || []] for an optional array: every array is truthy. *)
Definition or_nil {A} (v : option (list A)) : list A :=
  match v with Some l => l | None => [] end.

(** ** Strings: [trim], and the case-insensitive tool pattern *)

(** White space and line terminators that [String.prototype.trim] strips,
    among the code units below 256. *)
Definition is_js_space (c : ascii) : bool :=
  let n := N_of_ascii c in
  (N.eqb n 9 || N.eqb n 10 || N.eqb n 11 || N.eqb n 12 || N.eqb n 13
   || N.eqb n 32 || N.eqb n 160)%bool.

Fixpoint all_space (s : string) : bool :=
  match s with
  | EmptyString => true
  | String c t => is_js_space c && all_space t
  end.

(** [!text.trim()]: the trimmed string is empty exactly when every code unit
    is white space. *)
Definition trim_is_empty (s : string) : bool := all_space s.

(** Canonicalisation of the [/i] flag on the ASCII letters: a pattern of
    lower-case ASCII letters matches a code unit iff the unit is that letter
    in either case (units of 128 and above never fold into ASCII). *)
Definition lower (c : ascii) : ascii :=
  let n := N_of_ascii c in
  if (N.leb 65 n && N.leb n 90)%bool then ascii_of_N (n + 32) else c.

Fixpoint lower_str (s : string) : string :=
  match s with
  | EmptyString => EmptyString
  | String c t => String (lower c) (lower_str t)
  end.

(** [w] matches at the start of [s], ignoring case ([w] is lower case). *)
Fixpoint starts_ci (w s : string) : bool :=
  match w, s with
  | EmptyString, _ => true
  | String _ _, EmptyString => false
  | String a w', String c s' => Ascii.eqb a (lower c) && starts_ci w' s'
  end.

(** [w] matches somewhere in [s], ignoring case. *)
Fixpoint occurs_ci (w s : string) : bool :=
  starts_ci w s ||
  match s with
  | EmptyString => false
  | String _ s' => occurs_ci w s'
  end.

(** The alternatives of
    [/photoshop|canva|picsart|snapseed|editor|paint|express/i]. *)
Definition manipulationTools : list string :=
  ["photoshop"; "canva"; "picsart"; "snapseed"; "editor"; "paint"; "express"].

(** [manipulationTools.test(s)] *)
Definition manipulationTools_test (s : string) : bool :=
  existsb (fun w => occurs_ci w s) manipulationTools.

(** ** [Set] of strings: insertion-ordered, no duplicates *)

Definition mem (x : string) (s : list string) : bool :=
  existsb (String.eqb x) s.

(** [Set.prototype.add]: an element already present keeps its position. *)
Definition set_add (s : list string) (x : string) : list string :=
  if mem x s then s else s ++ [x].

(** [[...new Set(l)]]: the elements are added in order, then spread in
    insertion order. *)
Definition spread_new_Set (l : list string) : list string :=
  fold_left set_add l [].

(** ** Binary64 arithmetic *)

(** A double: a finite value, held exactly, or one of the two infinities
    and NaN. The three are not told apart: the code feeds such a value only
    to [Math.abs(ratio - r) < 0.1], which is false on each of them. *)
Inductive double : Type :=
| Finite (q : Q)
| NotFinite.

Definition pow2 (e : Z) : Q := Qpower (2 # 1) e.

(** The exponent [e] of a positive rational [a]: [2^e <= a < 2^(e+1)]. *)
Definition ilog2 (a : Q) : Z :=
  let est := Z.log2 (Qnum a) - Z.log2 (Zpos (Qden a)) in
  if Qle_bool (pow2 est) a then est else est - 1.

(** The integer nearest to [x], the even one at a tie. *)
Definition round_half_even (x : Q) : Z :=
  let f := Qfloor x in
  match Qcompare (x - inject_Z f) (1 # 2) with
  | Lt => f
  | Gt => f + 1
  | Eq => if Z.even f then f else f + 1
  end.

(** The double nearest to the real number [q]: 53 significant bits, the
    exponent no lower than -1022 (below it the spacing stays at 2^-1074),
    ties to even, and an infinity from 2^1024 on. *)
Definition round64 (q : Q) : double :=
  let q := Qred q in
  if Qeq_bool q 0 then Finite 0
  else
    let a := Qabs q in
    let e := Z.max (ilog2 a) (-1022) in
    let ulp := pow2 (e - 52) in
    let m := round_half_even (a / ulp) in
    let v := Qred (inject_Z m * ulp) in
    if Qle_bool (pow2 1024) v then NotFinite
    else Finite (if Qle_bool 0 q then v else Qopp v).

(** [a / b] on two doubles with the exact values [a] and [b]; a division
    by zero gives an infinity or NaN. *)
Definition div64 (a b : Q) : double :=
  if Qeq_bool b 0 then NotFinite else round64 (a / b).

(** [a - b] *)
Definition sub64 (a b : double) : double :=
  match a, b with
  | Finite x, Finite y => round64 (x - y)
  | _, _ => NotFinite
  end.

(** The literal [0.1]: the double nearest to one tenth. *)
Definition tenth : Q := 3602879701896397 # 36028797018963968.

(** ** [Number.prototype.toFixed(2)] *)

(** The decimal digits of a natural number. *)
Definition decimal (n : Z) : string :=
  NilZero.string_of_uint (N.to_uint (Z.to_N n)).

Definition two_digits (n : Z) : string :=
  if n <? 10 then "0" ++ decimal n else decimal n.

Definition same_double (a b : double) : bool :=
  match a, b with
  | Finite x, Finite y => Qeq_bool x y
  | NotFinite, NotFinite => true
  | _, _ => false
  end.

(** The digits [s] of [Number::toString] for [a] of [n] integer digits: the
    fewest digits [k] such that [s * 10^(n-k)] reads back as the double [a],
    the closest such [s] when there are two (the even one at a tie). Only
    the two multiples of [10^(n-k)] around [a] can be closest. Seventeen
    digits always read back. *)
Fixpoint shortest (fuel : nat) (a : Q) (n k : Z) : Z * Z :=
  let p := inject_Z (10 ^ (n - k)) in
  let lo := Qfloor (a / p) in
  let hi := lo + 1 in
  let reads_back s := same_double (round64 (inject_Z s * p)) (round64 a) in
  match fuel with
  | O => (lo, k)
  | S fuel' =>
      match reads_back lo, reads_back hi with
      | true, true =>
          match Qcompare (a - inject_Z lo * p) (inject_Z hi * p - a) with
          | Lt => (lo, k)
          | Gt => (hi, k)
          | Eq => (if Z.even lo then lo else hi, k)
          end
      | true, false => (lo, k)
      | false, true => (hi, k)
      | false, false => shortest fuel' a n (k + 1)
      end
  end.

(** [Number::toString] of a double [a] that is at least 10^21: one digit,
    the other digits after a point if there are any, then the exponent. *)
Definition exponent_notation (a : Q) : string :=
  let n := Z.of_nat (String.length (decimal (Qfloor a))) in
  let (s, k) := shortest 20 a n 1 in
  let (s, n) := if s =? 10 ^ k then (1, n + 1) else (s, n) in
  match decimal s with
  | String d EmptyString => String d "e+" ++ decimal (n - 1)
  | String d rest => String d ("." ++ rest) ++ "e+" ++ decimal (n - 1)
  | EmptyString => EmptyString
  end.

(** [x.toFixed(2)] for a finite [x]: the sign, then, below 10^21, the
    integer [n] closest to [|x| * 100] (the larger when two are as close)
    printed with two fractional digits, and from 10^21 on the magnitude as
    [Number::toString] prints it. *)
Definition toFixed2 (x : Q) : string :=
  let sign := if Qlt_le_dec x (0 # 1) then "-" else "" in
  let a := Qabs x in
  if Qle_bool (inject_Z (10 ^ 21)) a then
    match round64 a with
    | Finite _ => sign ++ exponent_notation a
    | NotFinite => sign ++ "Infinity"
    end
  else
    let n := Qfloor (a * (100 # 1) + (1 # 2))%Q in
    sign ++ decimal (n / 100) ++ "." ++ two_digits (n mod 100).

(** ** Data model ([types.ts]) *)

Inductive RiskLevel : Type := Low | Medium | High.

(** [LayoutStatus] is a union of string literals; the value taken from a
    reply is cast to it without a run-time check, so it is a string. *)
Definition LayoutStatus : Type := string.

Record TemplateAnomaly : Type := {
  x : Q;
  y : Q;
  width : Q;
  height : Q;
  label : string;
  severity : string
}.

Record ScanResult : Type := {
  riskLevel : RiskLevel;
  score : Z;
  explanation : option string;
  reasons : option (list string);
  advice : option (list string);
  layoutCheck : option LayoutStatus;
  anomalies : option (list TemplateAnomaly)
}.

Inductive ScanMode : Type :=
| mode_text | mode_link | mode_image | mode_payment | mode_qr.

Definition Country : Type := string.

(** The caller's metadata bag ([metadata: any]): every signal is optional. *)
Record Metadata : Type := {
  software : option string;
  isAlteredTimestamp : option bool;
  hasExif : option bool;
  isScreenshot : option bool;
  make : option string;
  model : option string;
  gpsLatitude : option Q;
  gpsLongitude : option Q
}.

Record ImageSize : Type := {
  img_width : Z;
  img_height : Z
}.

(** ** The platform registry *)

Record PlatformTemplate : Type := {
  primaryColor : string;
  aspectRatios : list double;
  fontFamily : string;
  branding : string;
  structure : string
}.

(** The four own properties of the registry; every accepted ratio is the
    double that its division gives when the module is loaded. *)
Definition PLATFORM_TEMPLATES_entries : list (string * PlatformTemplate) :=
  [ ("Google Pay",
     {| primaryColor := "#4285F4";
        aspectRatios := [div64 (39 # 2) (9 # 1); div64 (20 # 1) (9 # 1); div64 (16 # 1) (9 # 1)];
        fontFamily := "Product Sans / Google Sans";
        branding := "Google Logo top center/left";
        structure := "Clean material design, pill buttons" |});
    ("PhonePe",
     {| primaryColor := "#5f259f";
        aspectRatios := [div64 (39 # 2) (9 # 1); div64 (20 # 1) (9 # 1)];
        fontFamily := "Roboto / Custom Sans";
        branding := "Purple header gradient";
        structure := "Transaction ID at bottom, large checkmark" |});
    ("Paytm",
     {| primaryColor := "#00baf2";
        aspectRatios := [div64 (39 # 2) (9 # 1); div64 (20 # 1) (9 # 1); div64 (18 # 1) (9 # 1)];
        fontFamily := "Paytm Sans / Inter";
        branding := "Light blue accents";
        structure := "Payment Success badge top, order details below" |});
    ("PayPal",
     {| primaryColor := "#003087";
        aspectRatios := [div64 (16 # 1) (9 # 1); div64 (39 # 2) (9 # 1)];
        fontFamily := "PayPal Sans / Futura";
        branding := "Double P logo top center";
        structure := "Minimalist, center-aligned transaction amount" |}) ].

Fixpoint assoc {A} (k : string) (l : list (string * A)) : option A :=
  match l with
  | [] => None
  | (k', v) :: t => if String.eqb k k' then Some v else assoc k t
  end.

(** The names of the members that every plain object inherits from
    [Object.prototype]: functions, and under [__proto__] the prototype
    itself. Each is truthy and has no [aspectRatios]. *)
Definition Object_prototype_members : list string :=
  [ "constructor"; "__defineGetter__"; "__defineSetter__"; "hasOwnProperty";
    "__lookupGetter__"; "__lookupSetter__"; "isPrototypeOf";
    "propertyIsEnumerable"; "toString"; "valueOf"; "__proto__";
    "toLocaleString" ].

(** What a lookup in the registry finds. *)
Inductive Member : Type :=
| Template (template : PlatformTemplate)
| Inherited.

(** [PLATFORM_TEMPLATES[platform]]: an own property, else an inherited
    member, else [undefined]. *)
Definition PLATFORM_TEMPLATES (platform : string) : option Member :=
  match assoc platform PLATFORM_TEMPLATES_entries with
  | Some template => Some (Template template)
  | None =>
      if existsb (String.eqb platform) Object_prototype_members
      then Some Inherited else None
  end.

(** ** Replies of the remote model, after [JSON.parse] *)

Inductive Gateway (R : Type) : Type :=
| Rejected              (* the call, or the parse of its text, threw *)
| Replied (aiResult : R).
Arguments Rejected {R}.
Arguments Replied {R} aiResult.

Record TextReply : Type := {
  t_score : option Z;
  t_explanation : option string;
  t_reasons : option (list string);
  t_advice : option (list string)
}.

Record LinkReply : Type := {
  l_score : option Z;
  l_reasons : option (list string)
}.

Record VisionReply : Type := {
  aiScore : option Z;
  aiReasons : option (list string);
  aiExplanation : option string;
  layoutStatus : option string;
  detectedAnomalies : option (list TemplateAnomaly)
}.

(** [JSON.parse('{}')]: no field present. *)
Definition empty_VisionReply : VisionReply :=
  {| aiScore := None; aiReasons := None; aiExplanation := None;
     layoutStatus := None; detectedAnomalies := None |}.

(** ** Risk tables *)

(** [s > hi ? 'High' : (s > mid ? 'Medium' : 'Low')] *)
Definition classify (hi mid s : Z) : RiskLevel :=
  if s >? hi then High else if s >? mid then Medium else Low.

(** ** [analyzeText] *)

Definition analyzeText (text : string) (country : Country)
    (gw : Gateway TextReply) : Outcome ScanResult :=
  if trim_is_empty text then
    Ok {| riskLevel := Low; score := 0;
          explanation := Some "Please enter a message.";
          reasons := Some []; advice := Some [];
          layoutCheck := None; anomalies := None |}
  else
    match gw with
    | Replied aiResult =>
        let finalScore := or_zero (t_score aiResult) in
        let riskLevel := classify 70 35 finalScore in
        Ok {| riskLevel := riskLevel;
              score := Z.min finalScore 100;
              explanation := t_explanation aiResult;
              reasons := t_reasons aiResult;
              advice := t_advice aiResult;
              layoutCheck := None; anomalies := None |}
    | Rejected =>
        Ok {| riskLevel := Low; score := 0;
              explanation := Some "Analysis failed.";
              reasons := Some []; advice := Some [];
              layoutCheck := None; anomalies := None |}
    end.

(** ** [analyzeLink] *)

Definition analyzeLink (url : string) (country : Country)
    (gw : Gateway LinkReply) : Outcome ScanResult :=
  match gw with
  | Replied aiResult =>
      let score := or_zero (l_score aiResult) in
      Ok {| riskLevel := classify 70 35 score;
            score := score;
            explanation := Some ("Domain audit complete for " ++ url ++ ".");
            reasons := l_reasons aiResult;
            advice := Some ["Check for subtle misspellings in the URL."];
            layoutCheck := None; anomalies := None |}
  | Rejected =>
      Ok {| riskLevel := Low; score := 0;
            explanation := Some "Link analysis failed.";
            reasons := Some []; advice := Some [];
            layoutCheck := None; anomalies := None |}
  end.

(** ** [analyzeForensics] *)

(** The local variables [score], [reasons], [anomalies] and [layoutCheck],
    threaded through the three numbered phases of the function. *)
Record State : Type := {
  st_score : Z;
  st_reasons : list string;
  st_anomalies : list TemplateAnomaly;
  st_layoutCheck : LayoutStatus
}.

Definition initial : State :=
  {| st_score := 0; st_reasons := []; st_anomalies := [];
     st_layoutCheck := "N/A" |}.

(** [score += k; reasons.push(r)] *)
Definition flag (k : Z) (r : string) (st : State) : State :=
  {| st_score := st_score st + k;
     st_reasons := st_reasons st ++ [r];
     st_anomalies := st_anomalies st;
     st_layoutCheck := st_layoutCheck st |}.

(** [reasons.push(r)] *)
Definition note (r : string) (st : State) : State := flag 0 r st.

Definition toolReason (sw : string) : string :=
  "Modification Signature: File processed via " ++ sw ++ ".".

Definition timestampReason : string :=
  "Epoch Discrepancy: Metadata suggests creation date was altered post-capture.".

Definition exifReason : string :=
  "Inconsistent Metadata: File claims to be a screenshot but contains camera lens data.".

Definition gpsReason (lat lon : Q) : string :=
  "Geolocation Marker Found: " ++ toFixed2 lat ++ ", " ++ toFixed2 lon.

Definition geometryReason (platform : string) : string :=
  "Geometric Mismatch: Screenshot dimensions do not match the " ++ platform
  ++ " standard.".

(** Rule 1: [if (metadata.software) { if (manipulationTools.test(...)) ... }] *)
Definition softwareRule (md : Metadata) (st : State) : State :=
  match software md with
  | Some sw =>
      if truthy_str (software md) then
        if manipulationTools_test sw then flag 40 (toolReason sw) st else st
      else st
  | None => st
  end.

(** Rule 2: [if (metadata.isAlteredTimestamp)] *)
Definition timestampRule (md : Metadata) (st : State) : State :=
  if truthy_bool (isAlteredTimestamp md) then flag 30 timestampReason st else st.

(** Rule 3: [if (metadata.hasExif && metadata.isScreenshot &&
    (metadata.make || metadata.model))] *)
Definition exifRule (md : Metadata) (st : State) : State :=
  if truthy_bool (hasExif md) && truthy_bool (isScreenshot md)
     && (truthy_str (make md) || truthy_str (model md))
  then flag 15 exifReason st else st.

(** Rule 4: [if (metadata.gpsLatitude !== undefined)]; the reason calls
    [toFixed] on both coordinates, and a call on [undefined] throws. *)
Definition gpsRule (md : Metadata) (st : State) : Outcome State :=
  match gpsLatitude md with
  | Some lat =>
      match gpsLongitude md with
      | Some lon => Ok (note (gpsReason lat lon) st)
      | None =>
          Throw (TypeError
                   "Cannot read properties of undefined (reading 'toFixed')")
      end
  | None => Ok st
  end.

(** Phase 1, [if (metadata) { ... }] *)
Definition metadataAudit (metadata : option Metadata) (st : State)
  : Outcome State :=
  match metadata with
  | Some md => gpsRule md (exifRule md (timestampRule md (softwareRule md st)))
  | None => Ok st
  end.

(** [imageSize.height / imageSize.width] *)
Definition ratio_of (imageSize : ImageSize) : double :=
  div64 (inject_Z (img_height imageSize)) (inject_Z (img_width imageSize)).

Definition Qltb (a b : Q) : bool := negb (Qle_bool b a).

(** [Math.abs(ratio - r) < 0.1] *)
Definition near (ratio : double) (r : double) : bool :=
  match sub64 ratio r with
  | Finite d => Qltb (Qabs d) tenth
  | NotFinite => false
  end.

(** [template.aspectRatios.some(r => Math.abs(ratio - r) < 0.1)] *)
Definition isStandard (template : PlatformTemplate) (imageSize : ImageSize)
  : bool :=
  existsb (near (ratio_of imageSize)) (aspectRatios template).

(** Phase 2, rule 5: [if (template) { ... }] *)
Definition aspectAudit (platform : string) (imageSize : ImageSize)
    (st : State) : Outcome State :=
  match PLATFORM_TEMPLATES platform with
  | Some (Template template) =>
      if negb (isStandard template imageSize)
      then Ok (flag 20 (geometryReason platform) st) else Ok st
  | Some Inherited =>
      Throw (TypeError "Cannot read properties of undefined (reading 'some')")
  | None => Ok st
  end.

(** Phases 1 and 2: the heuristic audit, before any remote call. *)
Definition heuristics (metadata : option Metadata) (imageSize : ImageSize)
    (platform : string) : Outcome State :=
  st <- metadataAudit metadata initial ;;
  aspectAudit platform imageSize st.

(** Phase 3, the four assignments after [JSON.parse]. *)
Definition visionMerge (aiResult : VisionReply) (st : State) : State :=
  {| st_score := Z.max (st_score st) (or_zero (aiScore aiResult));
     st_reasons := st_reasons st ++ or_nil (aiReasons aiResult);
     st_anomalies := st_anomalies st ++ or_nil (detectedAnomalies aiResult);
     st_layoutCheck := or_str (layoutStatus aiResult) "Suspicious" |}.

(** The [return] inside the [try]. *)
Definition visionResult (aiResult : VisionReply) (st : State) : ScanResult :=
  {| riskLevel := classify 70 35 (st_score st);
     score := Z.min (st_score st) 100;
     explanation :=
       Some (or_str (aiExplanation aiResult) "Forensic vision audit complete.");
     reasons := Some (spread_new_Set (st_reasons st));
     advice :=
       Some [ "Cross-verify this Transaction ID in your banking app.";
              "Check for blurred edges around the currency symbol.";
              "Check if the fonts are consistent across the entire screen." ];
     anomalies := Some (st_anomalies st);
     layoutCheck := Some (st_layoutCheck st) |}.

(** [if (layoutCheck === 'N/A') layoutCheck = ...] *)
Definition fallbackLayout (st : State) : State :=
  if String.eqb (st_layoutCheck st) "N/A" then
    {| st_score := st_score st;
       st_reasons := st_reasons st;
       st_anomalies := st_anomalies st;
       st_layoutCheck :=
         if st_score st >? 60 then "Failed"
         else if st_score st >? 25 then "Suspicious" else "Passed" |}
  else st.

(** The final [return]. *)
Definition fallbackResult (st : State) : ScanResult :=
  let st := fallbackLayout st in
  {| riskLevel := classify 65 30 (st_score st);
     score := Z.min (st_score st) 100;
     explanation := Some "Basic heuristic forensic audit complete.";
     reasons := Some (spread_new_Set (st_reasons st));
     advice := Some [ "Verify the transaction manually.";
                      "Check for editing artifacts." ];
     anomalies := Some (st_anomalies st);
     layoutCheck := Some (st_layoutCheck st) |}.

(** [platform: string = 'General'] *)
Definition platform_or_default (platform : option string) : string :=
  match platform with Some p => p | None => "General" end.

Definition analyzeForensics (mode : ScanMode) (metadata : option Metadata)
    (imageSize : ImageSize) (country : Country) (platform : option string)
    (base64Image : option string) (gw : Gateway VisionReply)
  : Outcome ScanResult :=
  let platform := platform_or_default platform in
  st <- heuristics metadata imageSize platform ;;
  if truthy_str base64Image then
    match gw with
    | Replied aiResult =>
        Ok (visionResult aiResult (visionMerge aiResult st))
    | Rejected => Ok (fallbackResult st)
    end
  else Ok (fallbackResult st).

(** * Vocabulary of the statements *)

(** What [manipulationTools.test] decides: some alternative of the pattern
    occurs in the string once the ASCII capitals are folded. *)
Definition names_editing_tool (s : string) : Prop :=
  exists w pre post,
    In w manipulationTools /\ lower_str s = pre ++ w ++ post.

(** The first occurrences of [l], in order: the head, then the first
    occurrences of the tail without the head. *)
Fixpoint first_occurrences (l : list string) : list string :=
  match l with
  | [] => []
  | a :: t =>
      a :: filter (fun b => negb (String.eqb a b)) (first_occurrences t)
  end.

(** The elements of [l] that are new with respect to [seen], each once. *)
Fixpoint fresh (seen l : list string) : list string :=
  match l with
  | [] => []
  | a :: t => if mem a seen then fresh seen t else a :: fresh (a :: seen) t
  end.

(** Rule 1: the software string, when it names an editing tool. *)
Definition tool_detected (metadata : option Metadata) : option string :=
  match metadata with
  | Some md =>
      match software md with
      | Some sw => if manipulationTools_test sw then Some sw else None
      | None => None
      end
  | None => None
  end.

(** Rule 2 *)
Definition timestamp_altered (metadata : option Metadata) : bool :=
  match metadata with
  | Some md => truthy_bool (isAlteredTimestamp md)
  | None => false
  end.

(** Rule 3 *)
Definition exif_contradiction (metadata : option Metadata) : bool :=
  match metadata with
  | Some md =>
      truthy_bool (hasExif md) && truthy_bool (isScreenshot md)
      && (truthy_str (make md) || truthy_str (model md))
  | None => false
  end.

(** Rule 4: the pair of coordinates, when both are there. *)
Definition gps_coordinates (metadata : option Metadata) : option (Q * Q) :=
  match metadata with
  | Some md =>
      match gpsLatitude md, gpsLongitude md with
      | Some lat, Some lon => Some (lat, lon)
      | _, _ => None
      end
  | None => None
  end.

(** Rule 5: the platform is registered and none of its accepted ratios is
    within the tolerance of the image's. *)
Definition geometry_mismatch (platform : string) (imageSize : ImageSize)
  : bool :=
  match PLATFORM_TEMPLATES platform with
  | Some (Template template) =>
      forallb (fun r => negb (near (ratio_of imageSize) r))
              (aspectRatios template)
  | _ => false
  end.

(** A latitude comes with its longitude. *)
Definition gps_pair_complete (metadata : option Metadata) : Prop :=
  match metadata with
  | Some md => gpsLatitude md <> None -> gpsLongitude md <> None
  | None => True
  end.

(** The platform name is not one of the members every object inherits. *)
Definition own_or_absent (platform : string) : Prop :=
  PLATFORM_TEMPLATES platform <> Some Inherited.



(** The heuristic audit runs to its end. *)
Definition audit_completes (metadata : option Metadata) (platform : string)
  : Prop :=
  gps_pair_complete metadata /\ own_or_absent platform.

Definition points (k : Z) (fires : bool) : Z := if fires then k else 0.

Definition given {A} (o : option A) : bool :=
  match o with Some _ => true | None => false end.

Definition one_if {A} (f : A -> string) (o : option A) : list string :=
  match o with Some a => [f a] | None => [] end.

Definition one_when (r : string) (fires : bool) : list string :=
  if fires then [r] else [].

(** The deep-vision result, when there is one: an image was supplied and
    the remote call and the parse of its reply both succeeded. *)
Definition deepVision (base64Image : option string)
    (gw : Gateway VisionReply) : option VisionReply :=
  if truthy_str base64Image then
    match gw with Replied aiResult => Some aiResult | Rejected => None end
  else None.

(** A result follows the table with thresholds [hi] and [mid]. *)
Definition follows_table (hi mid : Z) (r : ScanResult) : Prop :=
  (riskLevel r = High <-> score r > hi)
  /\ (riskLevel r = Medium <-> mid < score r <= hi)
  /\ (riskLevel r = Low <-> score r <= mid).

(** [score > 60 ? 'Failed' : (score > 25 ? 'Suspicious' : 'Passed')] *)
Definition layout_of_score (s : Z) : LayoutStatus :=
  if s >? 60 then "Failed" else if s >? 25 then "Suspicious" else "Passed".

(** [{ riskLevel: 'Low', score: 0, explanation: e, reasons: [], advice: [] }] *)
Definition degraded (e : string) : ScanResult :=
  {| riskLevel := Low; score := 0; explanation := Some e;
     reasons := Some []; advice := Some [];
     layoutCheck := None; anomalies := None |}.

Definition misspellings_tip : string :=
  "Check for subtle misspellings in the URL.".

(** The relative error of a rounding to binary64, and its absolute error
    below the smallest exponent. *)
Definition eps64 : Q := 1 # 9007199254740992.

Definition tiny64 : Q := pow2 (-1075).

(** The doubles of 16/9, 20/9 and 19.5/9. *)
Definition R16 : Q := 2001599834386887 # 1125899906842624.

Definition R20 : Q := 2501999792983609 # 1125899906842624.

Definition R195 : Q := 4878899596318037 # 2251799813685248.

(** * Sample inputs *)

Definition all_rules_metadata : Metadata :=
  {| software := Some "Adobe Photoshop CC";
     isAlteredTimestamp := Some true;
     hasExif := Some true;
     isScreenshot := Some true;
     make := Some "Canon";
     model := None;
     gpsLatitude := Some (1297162 # 100000)%Q;
     gpsLongitude := Some (7759456 # 100000)%Q |}.

Definition hd_portrait : ImageSize := {| img_width := 1080; img_height := 1920 |}.

Definition canva_metadata : Metadata :=
  {| software := Some "Canva 2.1";
     isAlteredTimestamp := None; hasExif := None; isScreenshot := None;
     make := None; model := None; gpsLatitude := None; gpsLongitude := None |}.

Definition reply_with_score (s : Z) : VisionReply :=
  {| aiScore := Some s; aiReasons := Some ["Font weights differ."];
     aiExplanation := Some "Layout deviates from the template.";
     layoutStatus := Some "Suspicious"; detectedAnomalies := Some [] |}.

Definition jpeg_image : option string := Some "data:image/jpeg;base64,/9j/4AAQ".

Definition canva_exif_metadata : Metadata :=
  {| software := Some "Canva 2.1";
     isAlteredTimestamp := None; hasExif := Some true;
     isScreenshot := Some true; make := None; model := Some "EOS 80D";
     gpsLatitude := None; gpsLongitude := None |}.

Definition negative_reply : TextReply :=
  {| t_score := Some (-5); t_explanation := Some "No scam markers.";
     t_reasons := Some []; t_advice := Some [] |}.

Definition latitude_only : Metadata :=
  {| software := None; isAlteredTimestamp := None; hasExif := None;
     isScreenshot := None; make := None; model := None;
     gpsLatitude := Some (1234 # 100)%Q; gpsLongitude := None |}.

Definition repeating_reply : TextReply :=
  {| t_score := Some 80; t_explanation := Some "Prize scam.";
     t_reasons := Some ["Urgent tone"; "Unknown sender"; "Urgent tone"];
     t_advice := Some ["Do not reply."] |}.

(** * Further vocabulary *)

(** [{ riskLevel: 'Low', score: 0, explanation: "Please enter a message.",
    reasons: [], advice: [] }] *)
Definition please_enter : ScanResult :=
  {| riskLevel := Low; score := 0;
     explanation := Some "Please enter a message.";
     reasons := Some []; advice := Some [];
     layoutCheck := None; anomalies := None |}.

(** Low below Medium below High. *)
Definition risk_rank (l : RiskLevel) : Z :=
  match l with Low => 0 | Medium => 1 | High => 2 end.

(** The same picture at another resolution. *)
Definition scaled (k : Z) (imageSize : ImageSize) : ImageSize :=
  {| img_width := k * img_width imageSize;
     img_height := k * img_height imageSize |}.

(** Two metadata bags that differ at most in their GPS coordinates. *)
Definition same_but_gps (md1 md2 : Metadata) : Prop :=
  software md1 = software md2
  /\ isAlteredTimestamp md1 = isAlteredTimestamp md2
  /\ hasExif md1 = hasExif md2
  /\ isScreenshot md1 = isScreenshot md2
  /\ make md1 = make md2
  /\ model md1 = model md2.

Definition tool_and_timestamp : Metadata :=
  {| software := Some "Snapseed 2.19";
     isAlteredTimestamp := Some true; hasExif := None; isScreenshot := None;
     make := None; model := None; gpsLatitude := None; gpsLongitude := None |}.

Definition canva_located : Metadata :=
  {| software := Some "Canva 2.1";
     isAlteredTimestamp := None; hasExif := None; isScreenshot := None;
     make := None; model := None;
     gpsLatitude := Some (4885 # 100)%Q; gpsLongitude := Some (235 # 100)%Q |}.

Definition echoing_reply : VisionReply :=
  {| aiScore := Some 40;
     aiReasons :=
       Some [ "Font weights differ.";
              "Modification Signature: File processed via Canva 2.1.";
              "Font weights differ." ];
     aiExplanation := None; layoutStatus := None;
     detectedAnomalies := None |}.

(** A gateway score, as the text path and as the link path receive it. *)
Definition text_reply_scoring (s : option Z) : TextReply :=
  {| t_score := s; t_explanation := None; t_reasons := None;
     t_advice := None |}.

Definition link_reply_scoring (s : option Z) : LinkReply :=
  {| l_score := s; l_reasons := None |}.

(** * The image data sent to the remote model *)

(** [s.split(',')]: the pieces of [s] between its commas, at least one. *)
Fixpoint split_comma (s : string) : list string :=
  match s with
  | EmptyString => [EmptyString]
  | String c t =>
      if Ascii.eqb c ","%char then EmptyString :: split_comma t
      else
        match split_comma t with
        | piece :: rest => String c piece :: rest
        | [] => [String c EmptyString]
        end
  end.

(** [const base64Data = base64Image.split(',')[1]] *)
Definition base64Data (base64Image : string) : option string :=
  nth_error (split_comma base64Image) 1.

(** [pieces.join(sep)] on an array of strings *)
Fixpoint join (sep : string) (pieces : list string) : string :=
  match pieces with
  | [] => ""
  | [p] => p
  | p :: rest => p ++ sep ++ join sep rest
  end.

Fixpoint has_comma (s : string) : bool :=
  match s with
  | EmptyString => false
  | String c t => Ascii.eqb c ","%char || has_comma t
  end.

(** * [geminiService.ts] *)

Module GeminiService.

(** What a call of this file can raise: the rejection of the remote call,
    which nothing here catches, a [TypeError], or [new Error(msg)]. *)
Inductive Raise : Type :=
| RemoteRejection (why : string)
| JsTypeError
| PlainError (msg : string).

Inductive Attempt (A : Type) : Type :=
| Done (a : A)
| Raised (e : Raise).
Arguments Done {A} a.
Arguments Raised {A} e.

(** JavaScript values: what [JSON.parse] returns, and [undefined]. An
    object is the list of its own properties in the order they were set;
    reading takes the last one set under a name. *)
#[warnings="-register-all"]
Inductive JsValue : Type :=
| JUndefined
| JNull
| JBool (b : bool)
| JNum (q : Q)
| JStr (s : string)
| JArr (items : list JsValue)
| JObj (props : list (string * JsValue)).

Definition Obj : Type := list (string * JsValue).

(** [o[k]] on the own properties of an object. *)
Definition field (k : string) (o : Obj) : option JsValue :=
  assoc k (rev o).

Definition truthy (v : JsValue) : bool :=
  match v with
  | JUndefined | JNull => false
  | JBool b => b
  | JNum q => negb (Qeq_bool q 0)
  | JStr EmptyString => false
  | JStr _ | JArr _ | JObj _ => true
  end.

(** [a || b] *)
Definition js_or (a b : JsValue) : JsValue := if truthy a then a else b.

Definition index_key (i : nat) : string :=
  NilZero.string_of_uint (Nat.to_uint i).

Fixpoint indexed {A} (f : A -> JsValue) (i : nat) (l : list A) : Obj :=
  match l with
  | [] => []
  | a :: t => (index_key i, f a) :: indexed f (S i) t
  end.

Fixpoint code_units (s : string) : list string :=
  match s with
  | EmptyString => []
  | String c t => String c EmptyString :: code_units t
  end.

(** [{ ...v }]: the own enumerable properties of [v]; the indices of a
    string or an array, nothing for the other primitives. *)
Definition spread (v : JsValue) : Obj :=
  match v with
  | JObj props => props
  | JArr items => indexed (fun a => a) 0 items
  | JStr s => indexed JStr 0 (code_units s)
  | _ => []
  end.

(** [v.name] for a name that is neither an index, nor [length], nor an
    inherited member: it throws on [null] and [undefined], and finds
    nothing on a primitive or an array. *)
Definition read (name : string) (v : JsValue) : Attempt JsValue :=
  match v with
  | JUndefined | JNull => Raised JsTypeError
  | JObj props =>
      Done match field name props with Some a => a | None => JUndefined end
  | _ => Done JUndefined
  end.

(** ** [analyzeContent] *)

Definition InputType : Type := string.

Record WebSource : Type := {
  title : option string;
  uri : option string
}.

Record GroundingChunk : Type := {
  web : option WebSource
}.

Record GroundingMetadata : Type := {
  groundingChunks : option (list GroundingChunk)
}.

Record ContentCandidate : Type := {
  groundingMetadata : option GroundingMetadata
}.

(** The response of the remote model: [parsed] is what
    [JSON.parse(response.text || '{}')] gives, [None] when it throws. *)
Record ContentResponse : Type := {
  parsed : option JsValue;
  candidates : option (list ContentCandidate)
}.

(** [imageData ? { parts: [{ text }, { inlineData: { mimeType, data } }] }
    : prompt]; the wording of the prompt is not modelled, only what it is
    built from. *)
Record ContentRequest : Type := {
  c_model : string;
  c_content : string;
  c_countries : list string;
  c_inputType : InputType;
  c_inlineData : option (option string)
}.

(** [(imageData || inputType === 'URL') ? 'gemini-3-pro-preview'
    : 'gemini-3-flash-preview'] *)
Definition modelName (inputType : InputType) (imageData : option string)
  : string :=
  if truthy_str imageData || String.eqb inputType "URL"
  then "gemini-3-pro-preview" else "gemini-3-flash-preview".

Definition contentRequest (content : string) (countries : list string)
    (inputType : InputType) (imageData : option string) : ContentRequest :=
  {| c_model := modelName inputType imageData;
     c_content := content;
     c_countries := countries;
     c_inputType := inputType;
     c_inlineData :=
       match imageData with
       | Some d => if truthy_str imageData then Some (base64Data d) else None
       | None => None
       end |}.

(** [response.candidates?.[0]?.groundingMetadata?.groundingChunks] *)
Definition chunks_of (response : ContentResponse)
  : option (list GroundingChunk) :=
  match candidates response with
  | Some (first :: _) =>
      match groundingMetadata first with
      | Some gm => groundingChunks gm
      | None => None
      end
  | _ => None
  end.

Record Link : Type := {
  link_title : string;
  link_uri : option string;
  link_type : string
}.

(** The body of the [forEach]: [if (chunk.web) links.push({ ... })] *)
Definition push_link (links : list Link) (chunk : GroundingChunk)
  : list Link :=
  match web chunk with
  | Some w =>
      links ++ [ {| link_title := or_str (title w) "External Intelligence Report";
                    link_uri := uri w;
                    link_type := "web" |} ]
  | None => links
  end.

(** [if (chunks) { chunks.forEach(...) }] *)
Definition links_of (chunks : option (list GroundingChunk)) : list Link :=
  match chunks with
  | Some l => fold_left push_link l []
  | None => []
  end.

Definition link_value (l : Link) : JsValue :=
  JObj [ ("title", JStr (link_title l));
         ("uri", match link_uri l with Some u => JStr u | None => JUndefined end);
         ("type", JStr (link_type l)) ].

Definition countryContext (countries : list string) : string :=
  "Audit intelligence cross-referenced with local fraud databases in: "
  ++ join ", " countries ++ ".".

Section Enums.

(** [Verdict.SUSPICIOUS] and [RiskLevel.MEDIUM]: members of two enums
    declared in a file that is not at hand. *)
Variable Verdict_SUSPICIOUS : JsValue.
Variable RiskLevel_MEDIUM : JsValue.

(** The object literal of the [return]. *)
Definition response_object (rawJson : JsValue) (inputType : InputType)
    (countries : list string) (links : list Link) : Attempt Obj :=
  match read "verdict" rawJson, read "riskLevel" rawJson with
  | Done verdict, Done riskLevel =>
      Done (spread rawJson
            ++ [ ("verdict", js_or verdict Verdict_SUSPICIOUS);
                 ("riskLevel", js_or riskLevel RiskLevel_MEDIUM);
                 ("inputTypeDetected", JStr inputType);
                 ("countryContext", JStr (countryContext countries));
                 ("seoHelper",
                  JObj [("keywords", JArr []); ("faqs", JArr [])]);
                 ("groundingLinks", JArr (map link_value links)) ])%list
  | Raised e, _ => Raised e
  | _, Raised e => Raised e
  end.

Definition analyzeContent
    (remote : ContentRequest -> Attempt ContentResponse)
    (content : string) (countries : list string) (inputType : InputType)
    (imageData : option string) (useSearch : bool) : Attempt Obj :=
  match remote (contentRequest content countries inputType imageData) with
  | Raised e => Raised e
  | Done response =>
      let rawJson :=
        match parsed response with
        | Some v => v
        | None => JObj []
        end in
      let links := links_of (chunks_of response) in
      response_object rawJson inputType countries links
  end.

End Enums.

(** ** [generateSafetyImage] *)

Record ImageGenParams : Type := {
  prompt : string;
  aspectRatio : string;
  imageSize : string
}.

Record ImageConfig : Type := {
  cfg_aspectRatio : string;
  cfg_imageSize : option string
}.

Record ImageRequest : Type := {
  i_model : string;
  i_text : string;
  i_imageConfig : ImageConfig
}.

Record InlineData : Type := {
  data : option string
}.

Record Part : Type := {
  inlineData : option InlineData
}.

Record Content : Type := {
  parts : option (list Part)
}.

Record ImageCandidate : Type := {
  content : option Content
}.

Record ImageResponse : Type := {
  i_candidates : option (list ImageCandidate)
}.

Definition isHighRes (params : ImageGenParams) : bool :=
  String.eqb (imageSize params) "2K" || String.eqb (imageSize params) "4K".

Definition imageRequest (params : ImageGenParams) : ImageRequest :=
  {| i_model :=
       if isHighRes params then "gemini-3-pro-image-preview"
       else "gemini-2.5-flash-image";
     i_text :=
       "A futuristic, professional cybersecurity poster about "
       ++ prompt params ++ ". Corporate high-tech style.";
     i_imageConfig :=
       {| cfg_aspectRatio := aspectRatio params;
          cfg_imageSize :=
            if isHighRes params then Some (imageSize params) else None |} |}.

(** [response.candidates?.[0]?.content?.parts || []] *)
Definition parts_of (response : ImageResponse) : list Part :=
  match i_candidates response with
  | Some (first :: _) =>
      match content first with
      | Some c => or_nil (parts c)
      | None => []
      end
  | _ => []
  end.

(** An interpolated [${d}]: [undefined] prints as its name. *)
Definition interpolate (d : option string) : string :=
  match d with Some s => s | None => "undefined" end.

(** The [for ... of] loop with its [return], then the [throw]. *)
Fixpoint first_image (l : list Part) : Attempt string :=
  match l with
  | [] => Raised (PlainError "Visual generation failed.")
  | part :: rest =>
      match inlineData part with
      | Some d => Done ("data:image/png;base64," ++ interpolate (data d))
      | None => first_image rest
      end
  end.

Definition generateSafetyImage
    (remote : ImageRequest -> Attempt ImageResponse)
    (params : ImageGenParams) : Attempt string :=
  match remote (imageRequest params) with
  | Raised e => Raised e
  | Done response => first_image (parts_of response)
  end.

End GeminiService.

(** * Sample remote models *)

Definition remote_replying (v : option GeminiService.JsValue)
  : GeminiService.ContentRequest
    -> GeminiService.Attempt GeminiService.ContentResponse :=
  fun _ =>
    GeminiService.Done
      {| GeminiService.parsed := v; GeminiService.candidates := None |}.

Definition scam_reply : GeminiService.JsValue :=
  GeminiService.JObj
    [ ("verdict", GeminiService.JStr "SCAM");
      ("riskLevel", GeminiService.JStr "");
      ("redFlags", GeminiService.JArr [GeminiService.JStr "Urgency"]);
      ("groundingLinks", GeminiService.JStr "spoofed") ].

Definition remote_painting (l : list GeminiService.Part)
  : GeminiService.ImageRequest
    -> GeminiService.Attempt GeminiService.ImageResponse :=
  fun _ =>
    GeminiService.Done
      {| GeminiService.i_candidates :=
           Some [ {| GeminiService.content :=
                       Some {| GeminiService.parts := Some l |} |} ] |}.

Definition text_part : GeminiService.Part :=
  {| GeminiService.inlineData := None |}.

Definition image_part (d : string) : GeminiService.Part :=
  {| GeminiService.inlineData := Some {| GeminiService.data := Some d |} |}.

Definition poster_2K : GeminiService.ImageGenParams :=
  {| GeminiService.prompt := "phishing";
     GeminiService.aspectRatio := "16:9";
     GeminiService.imageSize := "2K" |}.

(** * Properties *)

(** ** [toFixed(2)] on samples *)

Example toFixed2_a : toFixed2 (1234567 # 100000)%Q = "12.35".
Proof. (vm_compute; reflexivity). Qed.
Example toFixed2_b : toFixed2 (- (5 # 1000))%Q = "-0.01".
Proof. (vm_compute; reflexivity). Qed.
Example toFixed2_c : toFixed2 (77 # 1)%Q = "77.00".
Proof. (vm_compute; reflexivity). Qed.



(** From 10^21 on, [toFixed] prints as [toString] does. *)
Example toFixed2_1e21 : toFixed2 (inject_Z (10 ^ 21)) = "1e+21".
Proof. vm_compute. reflexivity. Qed.
Example toFixed2_1e23 :
  toFixed2 (inject_Z 99999999999999991611392) = "1e+23".
Proof. vm_compute. reflexivity. Qed.
Example toFixed2_large :
  toFixed2 (- inject_Z 4350000000000000166161186816)
  = "-4.35e+27".
Proof. vm_compute. reflexivity. Qed.
Example toFixed2_below_1e21 :
  toFixed2 (inject_Z 999999999999999868928) = "999999999999999868928.00".
Proof. vm_compute. reflexivity. Qed.

(** ** The tool pattern is a case-insensitive substring search *)

Section Pattern.

Lemma starts_ci_spec (w s : string) :
  starts_ci w s = true <-> exists post, lower_str s = w ++ post.
Proof.
  revert s; induction w as [|a w IH]; intros s; simpl.
  - split; [intros _; now exists (lower_str s) | reflexivity].
  - destruct s as [|c s]; simpl.
    + split; [discriminate | intros [post H]; discriminate].
    + rewrite andb_true_iff, Ascii.eqb_eq, IH. split.
      * intros [-> [post ->]]. now exists post.
      * intros [post H]. injection H as -> ->. split; [reflexivity | now exists post].
Qed.

Lemma occurs_ci_spec (w s : string) :
  occurs_ci w s = true <-> exists pre post, lower_str s = pre ++ w ++ post.
Proof.
  induction s as [|c s IH].
  - cbn [occurs_ci]. rewrite orb_false_r, starts_ci_spec. split.
    + intros [post H]. now exists "", post.
    + intros [pre [post H]]. destruct pre; [now exists post | discriminate].
  - cbn [occurs_ci]. rewrite orb_true_iff, starts_ci_spec, IH. split.
    + intros [[post H] | [pre [post H]]].
      * now exists "", post.
      * exists (String (lower c) pre), post. simpl. now rewrite H.
    + intros [pre [post H]]. destruct pre as [|a pre].
      * left. now exists post.
      * right. simpl in H. injection H as _ H. now exists pre, post.
Qed.

Lemma manipulationTools_test_spec (s : string) :
  manipulationTools_test s = true <-> names_editing_tool s.
Proof.
  unfold manipulationTools_test, names_editing_tool.
  rewrite existsb_exists. split.
  - intros [w [Hin Hocc]]. apply occurs_ci_spec in Hocc.
    destruct Hocc as [pre [post H]]. now exists w, pre, post.
  - intros [w [pre [post [Hin H]]]]. exists w. split; [assumption|].
    apply occurs_ci_spec. now exists pre, post.
Qed.

End Pattern.

(** ** [[...new Set(l)]] keeps the first occurrence of every string *)

Section SetSpread.

Lemma mem_In (a : string) (s : list string) : mem a s = true <-> In a s.
Proof.
  unfold mem. rewrite existsb_exists. split.
  - intros [b [Hin Heq]]. apply String.eqb_eq in Heq. now subst.
  - intros Hin. exists a. split; [assumption | apply String.eqb_refl].
Qed.

Lemma mem_app (a : string) (s1 s2 : list string) :
  mem a (s1 ++ s2)%list = mem a s1 || mem a s2.
Proof. unfold mem. apply existsb_app. Qed.

Lemma fresh_ext (s1 s2 l : list string) :
  (forall a, mem a s1 = mem a s2) -> fresh s1 l = fresh s2 l.
Proof.
  revert s1 s2; induction l as [|a t IH]; intros s1 s2 H; simpl.
  - reflexivity.
  - rewrite (H a). destruct (mem a s2).
    + now apply IH.
    + f_equal. apply IH. intros b. simpl. now rewrite H.
Qed.

Lemma fold_set_add (l acc : list string) :
  fold_left set_add l acc = (acc ++ fresh acc l)%list.
Proof.
  revert acc; induction l as [|a t IH]; intros acc; simpl.
  - now rewrite app_nil_r.
  - rewrite IH. unfold set_add. destruct (mem a acc) eqn:E.
    + reflexivity.
    + rewrite <- app_assoc. simpl. do 2 f_equal.
      apply fresh_ext. intros b. rewrite mem_app. simpl.
      now rewrite orb_false_r, orb_comm.
Qed.

Lemma filter_filter {A} (p q : A -> bool) (l : list A) :
  filter p (filter q l) = filter (fun a => q a && p a) l.
Proof.
  induction l as [|a t IH]; simpl; [reflexivity|].
  destruct (q a); simpl; [destruct (p a)|]; now rewrite IH.
Qed.

Lemma fresh_filter (seen l : list string) :
  fresh seen l = filter (fun a => negb (mem a seen)) (first_occurrences l).
Proof.
  revert seen; induction l as [|a t IH]; intros seen; simpl.
  - reflexivity.
  - rewrite filter_filter. destruct (mem a seen) eqn:E; simpl.
    + rewrite IH. apply filter_ext_in. intros b _.
      destruct (String.eqb a b) eqn:Eab; simpl; [|reflexivity].
      apply String.eqb_eq in Eab. subst b. now rewrite E.
    + f_equal. rewrite IH. apply filter_ext. intros b. simpl.
      rewrite (String.eqb_sym b a). now rewrite negb_orb.
Qed.

Theorem spread_new_Set_first_occurrences (l : list string) :
  spread_new_Set l = first_occurrences l.
Proof.
  unfold spread_new_Set. rewrite fold_set_add, fresh_filter. simpl.
  induction (first_occurrences l) as [|a t IH]; simpl; congruence.
Qed.

Lemma first_occurrences_In (l : list string) (a : string) :
  In a (first_occurrences l) <-> In a l.
Proof.
  induction l as [|b t IH]; simpl; [tauto|].
  rewrite filter_In, IH. destruct (String.eqb b a) eqn:E.
  - apply String.eqb_eq in E. subst. simpl. intuition discriminate.
  - apply String.eqb_neq in E. simpl. intuition congruence.
Qed.

Lemma first_occurrences_NoDup (l : list string) :
  NoDup (first_occurrences l).
Proof.
  induction l as [|b t IH]; simpl; constructor.
  - rewrite filter_In, String.eqb_refl. intros [_ H]. discriminate.
  - now apply NoDup_filter.
Qed.

End SetSpread.

(** ** Rounding to binary64 *)

(** The rounding on samples. *)
Example round64_tenth : round64 (1 # 10) = Finite tenth.
Proof. vm_compute. reflexivity. Qed.
Example div64_16_9 : div64 (16 # 1) (9 # 1) = Finite R16.
Proof. vm_compute. reflexivity. Qed.
Example div64_20_9 : div64 (20 # 1) (9 # 1) = Finite R20.
Proof. vm_compute. reflexivity. Qed.
Example div64_195_90 : div64 (39 # 2) (9 # 1) = Finite R195.
Proof. vm_compute. reflexivity. Qed.
Example div64_18_9 : div64 (18 # 1) (9 # 1) = Finite (2 # 1).
Proof. vm_compute. reflexivity. Qed.
Example div64_third :
  div64 (1 # 1) (3 # 1) = Finite (6004799503160661 # 18014398509481984).
Proof. vm_compute. reflexivity. Qed.
Example sub64_boundary :
  sub64 (div64 (151 # 1) (90 # 1)) (div64 (16 # 1) (9 # 1))
  = Finite (- (450359962737049 # 4503599627370496)).
Proof. vm_compute. reflexivity. Qed.
Example round64_ties_to_even :
  round64 (inject_Z (2 ^ 53 + 1)) = Finite (inject_Z (2 ^ 53))
  /\ round64 (inject_Z (2 ^ 53 + 3)) = Finite (inject_Z (2 ^ 53 + 4)).
Proof. split; vm_compute; reflexivity. Qed.
Example round64_overflows :
  round64 (inject_Z (2 ^ 1024 - 2 ^ 970)) = NotFinite.
Proof. vm_compute. reflexivity. Qed.

Lemma pow2_pos (e : Z) : (0 < pow2 e)%Q.
Proof. apply Qpower_0_lt. reflexivity. Qed.

Lemma pow2_add (a b : Z) : (pow2 (a + b) == pow2 a * pow2 b)%Q.
Proof. apply Qpower_plus. discriminate. Qed.

Lemma pow2_inject (k : Z) : 0 <= k -> (inject_Z (2 ^ k) == pow2 k)%Q.
Proof. intros H. unfold pow2. now rewrite Zpower_Qpower. Qed.

Lemma ilog2_lower (a : Q) : (0 < a)%Q -> (pow2 (ilog2 a) <= a)%Q.
Proof.
  intros Ha. unfold ilog2.
  set (n := Qnum a). set (d := Z.pos (Qden a)).
  destruct (Qle_bool (pow2 (Z.log2 n - Z.log2 d)) a) eqn:E.
  - now apply Qle_bool_iff.
  - clear E.
    assert (Hn : 0 < n) by (unfold Qlt in Ha; simpl in Ha; subst n; lia).
    assert (Hd : 0 < d) by (subst d; lia).
    destruct (Z.log2_spec n Hn) as [Hn1 _].
    destruct (Z.log2_spec d Hd) as [_ Hd2].
    pose proof (Z.log2_nonneg n) as Hln. pose proof (Z.log2_nonneg d) as Hld.
    replace (Z.log2 n - Z.log2 d - 1) with (Z.log2 n + - (Z.succ (Z.log2 d)))
      by lia.
    rewrite pow2_add. unfold pow2 at 2. rewrite Qpower_opp.
    fold (pow2 (Z.succ (Z.log2 d))).
    rewrite <- !pow2_inject by lia.
    assert (Ea : (a == inject_Z n / inject_Z d)%Q).
    { subst n d. destruct a as [an ad]. simpl. apply Qmake_Qdiv. }
    rewrite Ea.
    assert (H1 : (inject_Z (2 ^ Z.log2 n) <= inject_Z n)%Q)
      by (rewrite <- Zle_Qle; exact Hn1).
    assert (H2 : (inject_Z d <= inject_Z (2 ^ Z.succ (Z.log2 d)))%Q)
      by (rewrite <- Zle_Qle; lia).
    assert (H3 : (0 < inject_Z d)%Q) by (rewrite <- (Zlt_Qlt 0); exact Hd).
    assert (H4 : (0 < inject_Z (2 ^ Z.log2 n))%Q).
    { rewrite <- (Zlt_Qlt 0). apply Z.pow_pos_nonneg; lia. }
    set (X := inject_Z (2 ^ Z.log2 n)) in *.
    set (Y := inject_Z (2 ^ Z.succ (Z.log2 d))) in *.
    set (N := inject_Z n) in *. set (D := inject_Z d) in *.
    assert (HY : (0 < Y)%Q) by lra.
    apply Qle_shift_div_l; [exact H3|].
    unfold Qdiv. 
    assert (HYi : (0 < / Y)%Q) by (apply Qinv_lt_0_compat; exact HY).
    assert (E1 : (X * / Y * D == (X * D) * / Y)%Q) by ring.
    rewrite E1.
    apply Qle_shift_div_r; [exact HY|].
    apply Qle_trans with (N * D)%Q.
    + apply Qmult_le_compat_r; lra.
    + apply Qmult_le_l; lra.
Qed.

Lemma round_half_even_error (x : Q) :
  (Qabs (inject_Z (round_half_even x) - x) <= 1 # 2)%Q.
Proof.
  unfold round_half_even.
  pose proof (Qfloor_le x) as H1. pose proof (Qlt_floor x) as H2.
  rewrite inject_Z_plus in H2. change (inject_Z 1) with 1%Q in H2.
  set (f := Qfloor x) in *.
  apply Qabs_Qle_condition.
  destruct (Qcompare_spec (x - inject_Z f) (1 # 2)) as [E|E|E];
    [destruct (Z.even f)| |];
    rewrite ?inject_Z_plus; change (inject_Z 1) with 1%Q; split; lra.
Qed.

Lemma round64_cases (q : Q) :
  exists v : Q,
    (Qabs (v - q) <= Qabs q * eps64 + tiny64)%Q
    /\ (round64 q = Finite v
        \/ (round64 q = NotFinite /\ (pow2 1024 <= Qabs v)%Q)).
Proof.
  unfold round64.
  pose proof (Qred_correct q) as Hq. set (q' := Qred q) in *.
  assert (Ht : (0 < tiny64)%Q) by apply pow2_pos.
  destruct (Qeq_bool q' 0) eqn:E0.
  { apply Qeq_bool_eq in E0. exists 0%Q. split; [|now left].
    rewrite <- Hq, E0. unfold eps64. simpl. lra. }
  apply Qeq_bool_neq in E0.
  set (a := Qabs q').
  assert (Ha : (0 < a)%Q).
  { subst a. destruct (Qlt_le_dec 0 (Qabs q')) as [H|H]; [exact H|].
    exfalso. apply E0. pose proof (Qabs_nonneg q') as H0.
    assert (Hz : (Qabs q' == 0)%Q) by lra.
    apply Qabs_Qle_condition in H. lra. }
  set (e := Z.max (ilog2 a) (-1022)).
  set (ulp := pow2 (e - 52)).
  set (m := round_half_even (a / ulp)).
  assert (Hulp : (0 < ulp)%Q) by apply pow2_pos.
  set (v0 := Qred (inject_Z m * ulp)).
  assert (Hv0 : (v0 == inject_Z m * ulp)%Q) by apply Qred_correct.
  assert (Herr : (Qabs (v0 - a) <= a * eps64 + tiny64)%Q).
  { pose proof (round_half_even_error (a / ulp)) as Hr. fold m in Hr.
    apply Qabs_Qle_condition in Hr. destruct Hr as [Hr1 Hr2].
    assert (Hx : (a / ulp * ulp == a)%Q) by (field; lra).
    assert (Hhalf : (ulp * (1 # 2) <= a * eps64 + tiny64)%Q).
    { unfold ulp, e.
      destruct (Z.max_spec (ilog2 a) (-1022)) as [[_ ->]|[Hge ->]].
      - assert (Et : (pow2 (-1022 - 52) * (1 # 2) == tiny64)%Q).
        { vm_compute. reflexivity. }
        rewrite Et. assert ((0 <= a * eps64)%Q); [|lra].
        apply Qmult_le_0_compat; [lra | unfold eps64; discriminate].
      - replace (ilog2 a - 52) with (ilog2 a + -52) by lia.
        rewrite pow2_add.
        pose proof (ilog2_lower a Ha) as Hl.
        assert (Ee : (pow2 (-52) * (1 # 2) == eps64)%Q)
          by (vm_compute; reflexivity).
        assert (E1 : (pow2 (ilog2 a) * pow2 (-52) * (1 # 2)
                      == pow2 (ilog2 a) * eps64)%Q).
        { rewrite <- Ee. ring. }
        rewrite E1.
        assert (H2 : (pow2 (ilog2 a) * eps64 <= a * eps64)%Q).
        { apply Qmult_le_compat_r; [exact Hl | unfold eps64; discriminate]. }
        lra. }
    apply Qabs_Qle_condition. rewrite Hv0.
    assert (H1 : (inject_Z m * ulp - a
                  == (inject_Z m - a / ulp) * ulp)%Q) by (field; lra).
    rewrite H1.
    assert (Hlo : (- (1 # 2) * ulp <= (inject_Z m - a / ulp) * ulp)%Q).
    { apply Qmult_le_compat_r; lra. }
    assert (Hhi : ((inject_Z m - a / ulp) * ulp <= (1 # 2) * ulp)%Q).
    { apply Qmult_le_compat_r; lra. }
    split; lra. }
  destruct (Qle_bool 0 q') eqn:Es.
  - apply Qle_bool_iff in Es.
    assert (Eq : (a == q)%Q) by (subst a; rewrite Qabs_pos; [exact Hq|exact Es]).
    exists v0. split.
    + rewrite <- Eq. rewrite (Qabs_pos a) by lra. exact Herr.
    + destruct (Qle_bool (pow2 1024) v0) eqn:Eo; [right | now left].
      split; [reflexivity|]. apply Qle_bool_iff in Eo.
      pose proof (Qle_Qabs v0). lra.
  - assert (Hneg : (q' < 0)%Q).
    { apply Qnot_le_lt. intros H. apply Qle_bool_iff in H. congruence. }
    assert (Eq : (a == - q)%Q).
    { subst a. rewrite Qabs_neg by lra. now rewrite Hq. }
    exists (- v0)%Q. split.
    + assert (E1 : (- v0 - q == - (v0 - a))%Q) by (rewrite Eq; ring).
      rewrite E1, Qabs_opp.
      assert (E2 : (Qabs q == a)%Q).
      { rewrite <- Hq. reflexivity. }
      rewrite E2. exact Herr.
    + destruct (Qle_bool (pow2 1024) v0) eqn:Eo; [right | now left].
      split; [reflexivity|]. apply Qle_bool_iff in Eo.
      rewrite Qabs_opp. pose proof (Qle_Qabs v0). lra.
Qed.

Lemma tiny64_small : (0 < tiny64 /\ tiny64 <= 1 # 1152921504606846976)%Q.
Proof.
  split; [apply pow2_pos|]. apply Qle_bool_iff. vm_compute. reflexivity.
Qed.

(** A finite result is within half a unit in the last place. *)
Lemma round64_bounds (q v : Q) :
  round64 q = Finite v ->
  (q - (Qabs q * eps64 + tiny64) <= v <= q + (Qabs q * eps64 + tiny64))%Q.
Proof.
  intros E. destruct (round64_cases q) as [v' [Hb [E'|[E' _]]]];
    [|congruence].
  assert (v' = v) by congruence. subst v'.
  apply Qabs_Qle_condition in Hb. split; lra.
Qed.

Lemma round64_finite (q : Q) :
  (Qabs q <= 8)%Q -> exists v, round64 q = Finite v.
Proof.
  intros Hq. destruct (round64_cases q) as [v [Hb [E|[_ Ho]]]];
    [now exists v|].
  exfalso. destruct tiny64_small as [Ht1 Ht2].
  assert (Hp : (17 <= pow2 1024)%Q) by (apply Qle_bool_iff; vm_compute; reflexivity).
  pose proof (Qabs_triangle (v - q) q) as Htri.
  assert (Ev : (v - q + q == v)%Q) by ring. rewrite Ev in Htri.
  pose proof (Qabs_nonneg q) as H0.
  unfold eps64 in Hb. lra.
Qed.

Lemma ratio_as_fraction (h w : Z) :
  0 < w -> (inject_Z h / inject_Z w == h # Z.to_pos w)%Q.
Proof.
  intros Hw. destruct w as [|p|p]; try lia. simpl.
  symmetry. apply Qmake_Qdiv.
Qed.

Lemma far_is_not_near (h w : Z) (x : Q) :
  0 < w ->
  9000 * h <= 15091 * w \/ 20909 * w <= 9000 * h ->
  (R16 <= x <= R20)%Q ->
  near (div64 (inject_Z h) (inject_Z w)) (Finite x) = false.
Proof.
  intros Hw Hband [Hx1 Hx2]. unfold near, sub64, div64.
  destruct w as [|p|p]; try lia.
  assert (Hw0 : Qeq_bool (inject_Z (Z.pos p)) 0 = false) by reflexivity.
  rewrite Hw0.
  destruct (round64 (inject_Z h / inject_Z (Z.pos p))) as [v|] eqn:Ev;
    [|reflexivity].
  destruct (round64 (v - x)) as [d|] eqn:Ed; [|reflexivity].
  apply round64_bounds in Ev. apply round64_bounds in Ed.
  destruct tiny64_small as [Ht1 Ht2].
  rewrite (ratio_as_fraction h (Z.pos p) Hw) in Ev.
  change (Z.to_pos (Z.pos p)) with p in Ev.
  set (q := (h # p)%Q) in *.
  unfold Qltb. apply negb_false_iff. apply Qle_bool_iff.
  unfold eps64, R16, R20, tenth in *.
  destruct Hband as [Hb|Hb].
  - assert (Hq : (q <= 15091 # 9000)%Q).
    { unfold q, Qle. simpl. lia. }
    assert (Hv : (v <= 16769 # 10000)%Q).
    { destruct (Qlt_le_dec q 0) as [Hs|Hs].
      - rewrite (Qabs_neg q) in Ev by lra. lra.
      - rewrite (Qabs_pos q) in Ev by lra. lra. }
    rewrite (Qabs_neg (v - x)) in Ed by lra.
    apply Qle_trans with (- d)%Q; [lra|].
    rewrite <- Qabs_opp. apply Qle_Qabs.
  - assert (Hq : (20909 # 9000 <= q)%Q).
    { unfold q, Qle. simpl. lia. }
    rewrite (Qabs_pos q) in Ev by lra.
    assert (Hv : (23231 # 10000 <= v)%Q) by lra.
    rewrite (Qabs_pos (v - x)) in Ed by lra.
    apply Qle_trans with d; [lra | apply Qle_Qabs].
Qed.

Lemma close_is_near (h w : Z) :
  0 < w ->
  6203 * w <= 3000 * h <= 6797 * w ->
  near (div64 (inject_Z h) (inject_Z w)) (Finite R195) = true.
Proof.
  intros Hw [Hb1 Hb2]. unfold near, sub64, div64.
  destruct w as [|p|p]; try lia.
  assert (Hw0 : Qeq_bool (inject_Z (Z.pos p)) 0 = false) by reflexivity.
  rewrite Hw0.
  destruct tiny64_small as [Ht1 Ht2].
  assert (Eq : (inject_Z h / inject_Z (Z.pos p) == h # p)%Q)
    by (symmetry; apply Qmake_Qdiv).
  set (q := (h # p)%Q) in *.
  assert (Hq1 : (6203 # 3000 <= q)%Q).
  { unfold q, Qle. simpl. lia. }
  assert (Hq2 : (q <= 6797 # 3000)%Q).
  { unfold q, Qle. simpl. lia. }
  destruct (round64_finite (inject_Z h / inject_Z (Z.pos p))) as [v Ev].
  { rewrite Eq, Qabs_pos by lra. lra. }
  rewrite Ev. apply round64_bounds in Ev. rewrite Eq in Ev.
  rewrite (Qabs_pos q) in Ev by lra.
  unfold eps64, R195 in *.
  assert (Hy : (- (991 # 10000) <= v - (4878899596318037 # 2251799813685248)
                <= 991 # 10000)%Q) by (split; lra).
  destruct (round64_finite (v - (4878899596318037 # 2251799813685248)))
    as [d Ed].
  { apply Qabs_Qle_condition. split; lra. }
  rewrite Ed. apply round64_bounds in Ed.
  assert (Hay : (Qabs (v - (4878899596318037 # 2251799813685248))
                 <= 991 # 10000)%Q).
  { apply Qabs_Qle_condition. exact Hy. }
  unfold eps64 in Ed.
  unfold Qltb. apply negb_true_iff.
  destruct (Qle_bool tenth (Qabs d)) eqn:E; [|reflexivity].
  apply Qle_bool_iff in E. exfalso.
  assert (Hd : (Qabs d <= 992 # 10000)%Q).
  { apply Qabs_Qle_condition. split; lra. }
  unfold tenth in E. lra.
Qed.




(** Every accepted ratio of the registry is a double between those of 16/9
    and 20/9, and every platform accepts the double of 19.5/9. *)
Lemma registry_ratios (platform : string) (template : PlatformTemplate) :
  PLATFORM_TEMPLATES platform = Some (Template template) ->
  (forall r, In r (aspectRatios template) ->
             exists x, r = Finite x /\ (R16 <= x <= R20)%Q)
  /\ In (Finite R195) (aspectRatios template).
Proof.
  unfold PLATFORM_TEMPLATES, PLATFORM_TEMPLATES_entries. cbn [assoc].
  repeat match goal with
         | |- context [String.eqb platform ?s] =>
             destruct (String.eqb platform s)
         end;
    intros E; try discriminate;
    try (destruct (existsb (String.eqb platform) Object_prototype_members);
         discriminate);
    injection E as <-; cbn [aspectRatios];
    (split; [| vm_compute; tauto]);
    intros r Hr; vm_compute in Hr;
    repeat (destruct Hr as [<- | Hr];
            [eexists; split; [reflexivity|];
             split; apply Qle_bool_iff; vm_compute; reflexivity|]);
    contradiction.
Qed.

(** ** The heuristic audit: five independent rules *)

Section Heuristic.

Variable md : Metadata.
Variable st : State.





Lemma softwareRule_effect :
  st_score (softwareRule md st)
  = st_score st + points 40 (given (tool_detected (Some md)))
  /\ st_reasons (softwareRule md st)
     = (st_reasons st ++ one_if toolReason (tool_detected (Some md)))%list.
Proof.
  unfold softwareRule, tool_detected.
  destruct (software md) as [[|c sw]|]; simpl;
    try (now rewrite Z.add_0_r, app_nil_r).
  destruct (manipulationTools_test (String c sw)); simpl;
    [split; reflexivity | now rewrite Z.add_0_r, app_nil_r].
Qed.

Lemma timestampRule_effect :
  st_score (timestampRule md st)
  = st_score st + points 30 (timestamp_altered (Some md))
  /\ st_reasons (timestampRule md st)
     = (st_reasons st ++ one_when timestampReason (timestamp_altered (Some md)))%list.
Proof.
  unfold timestampRule, timestamp_altered.
  destruct (truthy_bool (isAlteredTimestamp md)); simpl;
    [split; reflexivity | now rewrite Z.add_0_r, app_nil_r].
Qed.

Lemma exifRule_effect :
  st_score (exifRule md st)
  = st_score st + points 15 (exif_contradiction (Some md))
  /\ st_reasons (exifRule md st)
     = (st_reasons st ++ one_when exifReason (exif_contradiction (Some md)))%list.
Proof.
  unfold exifRule, exif_contradiction.
  destruct (truthy_bool (hasExif md) && truthy_bool (isScreenshot md)
            && (truthy_str (make md) || truthy_str (model md))); simpl;
    [split; reflexivity | now rewrite Z.add_0_r, app_nil_r].
Qed.

Lemma gpsRule_effect :
  gps_pair_complete (Some md) ->
  exists st',
    gpsRule md st = Ok st'
    /\ st_score st' = st_score st
    /\ st_reasons st'
       = (st_reasons st
          ++ one_if (fun p => gpsReason (fst p) (snd p))
                    (gps_coordinates (Some md)))%list.
Proof.
  unfold gps_pair_complete, gpsRule, gps_coordinates.
  destruct (gpsLatitude md) as [lat|], (gpsLongitude md) as [lon|];
    intros H; simpl.
  - eexists; split; [reflexivity|]. simpl. split; [lia | reflexivity].
  - exfalso. now apply H.
  - eexists; split; [reflexivity|]. now rewrite app_nil_r.
  - eexists; split; [reflexivity|]. now rewrite app_nil_r.
Qed.

Lemma aspectAudit_effect (platform : string) (imageSize : ImageSize) :
  own_or_absent platform ->
  exists st',
    aspectAudit platform imageSize st = Ok st'
    /\ st_score st'
       = st_score st + points 20 (geometry_mismatch platform imageSize)
    /\ st_reasons st'
       = (st_reasons st
          ++ one_when (geometryReason platform)
                      (geometry_mismatch platform imageSize))%list
    /\ st_anomalies st' = st_anomalies st
    /\ st_layoutCheck st' = st_layoutCheck st.
Proof.
  unfold own_or_absent, aspectAudit, geometry_mismatch, isStandard.
  destruct (PLATFORM_TEMPLATES platform) as [[template|]|]; intros Hown.
  - assert (E : forallb (fun r => negb (near (ratio_of imageSize) r))
                        (aspectRatios template)
                = negb (existsb (near (ratio_of imageSize))
                                (aspectRatios template))).
    { induction (aspectRatios template) as [|r t IH]; simpl; [reflexivity|].
      now rewrite IH, negb_orb. }
    rewrite E.
    destruct (negb (existsb (near (ratio_of imageSize))
                            (aspectRatios template)));
      eexists; (split; [reflexivity|]); simpl;
      rewrite ?Z.add_0_r, ?app_nil_r; repeat split.
  - now elim Hown.
  - eexists; split; [reflexivity|]. simpl.
    rewrite Z.add_0_r, app_nil_r. repeat split.
Qed.

End Heuristic.


(** The locals after phases 1 and 2, in closed form. *)
Lemma heuristics_closed_form
    (metadata : option Metadata) (imageSize : ImageSize) (platform : string) :
  audit_completes metadata platform ->
  exists st,
    heuristics metadata imageSize platform = Ok st
    /\ st_score st
       = points 40 (given (tool_detected metadata))
         + points 30 (timestamp_altered metadata)
         + points 15 (exif_contradiction metadata)
         + 0
         + points 20 (geometry_mismatch platform imageSize)
    /\ st_reasons st
       = (one_if toolReason (tool_detected metadata)
          ++ one_when timestampReason (timestamp_altered metadata)
          ++ one_when exifReason (exif_contradiction metadata)
          ++ one_if (fun p => gpsReason (fst p) (snd p))
                    (gps_coordinates metadata)
          ++ one_when (geometryReason platform)
                      (geometry_mismatch platform imageSize))%list
    /\ st_anomalies st = []
    /\ st_layoutCheck st = "N/A".
Proof.
  intros [Hgps Hown].
  assert (Hst : exists st1,
             metadataAudit metadata initial = Ok st1
             /\ st_score st1
                = points 40 (given (tool_detected metadata))
                  + points 30 (timestamp_altered metadata)
                  + points 15 (exif_contradiction metadata)
             /\ st_reasons st1
                = (one_if toolReason (tool_detected metadata)
                   ++ one_when timestampReason (timestamp_altered metadata)
                   ++ one_when exifReason (exif_contradiction metadata)
                   ++ one_if (fun p => gpsReason (fst p) (snd p))
                             (gps_coordinates metadata))%list
             /\ st_anomalies st1 = []
             /\ st_layoutCheck st1 = "N/A").
  { destruct metadata as [md|].
    - unfold metadataAudit.
      destruct (gpsRule_effect md
                  (exifRule md (timestampRule md (softwareRule md initial)))
                  Hgps) as [st1 [E [Hs Hr]]].
      exists st1. split; [exact E|].
      destruct (exifRule_effect md (timestampRule md (softwareRule md initial)))
        as [Hs3 Hr3].
      destruct (timestampRule_effect md (softwareRule md initial)) as [Hs2 Hr2].
      destruct (softwareRule_effect md initial) as [Hs1 Hr1].
      split; [rewrite Hs, Hs3, Hs2, Hs1; simpl; lia|].
      split; [rewrite Hr, Hr3, Hr2, Hr1; simpl; now rewrite <- !app_assoc|].
      clear - E. revert E.
      unfold gpsRule, exifRule, timestampRule, softwareRule.
      repeat match goal with
             | |- context [match ?c with _ => _ end] => destruct c
             end;
        intros E; try discriminate; injection E as <-; split; reflexivity.
    - exists initial. repeat split. }
  destruct Hst as [st1 [E1 [Hs1 [Hr1 [Ha1 Hl1]]]]].
  destruct (aspectAudit_effect st1 platform imageSize Hown)
    as [st [E [Hs [Hr [Ha Hl]]]]].
  exists st.
  split; [unfold heuristics; rewrite E1; exact E|].
  split; [rewrite Hs, Hs1; lia|].
  split; [rewrite Hr, Hr1; now rewrite <- !app_assoc|].
  split; congruence.
Qed.

(** The audit returns only when no latitude lacks its longitude and the
    platform is not the name of an inherited member. *)
Lemma heuristics_returns
    (metadata : option Metadata) (imageSize : ImageSize) (platform : string)
    (st : State) :
  heuristics metadata imageSize platform = Ok st ->
  audit_completes metadata platform.
Proof.
  intros E. split.
  - revert E.
    unfold heuristics, metadataAudit, gps_pair_complete, gpsRule.
    destruct metadata as [md|]; [|trivial].
    destruct (gpsLatitude md), (gpsLongitude md); simpl; intros E H;
      congruence.
  - unfold own_or_absent. intros Hinh. unfold heuristics in E.
    destruct (metadataAudit metadata initial) as [st1|e]; [|discriminate].
    simpl in E. unfold aspectAudit in E. rewrite Hinh in E. discriminate.
Qed.

(** On the name of an inherited member the lookup finds an object without
    [aspectRatios], and the call of [some] throws. *)
Example inherited_member_throws :
  analyzeForensics mode_payment None hd_portrait "India" (Some "constructor")
    None Rejected
  = Throw (TypeError "Cannot read properties of undefined (reading 'some')")
  /\ PLATFORM_TEMPLATES "toString" = Some Inherited
  /\ PLATFORM_TEMPLATES "General" = None.
Proof. repeat split; vm_compute; reflexivity. Qed.

Lemma points_bounds (k : Z) (b : bool) : 0 <= k -> 0 <= points k b <= k.
Proof. destruct b; simpl; lia. Qed.

Lemma heuristics_score_bounds
    (metadata : option Metadata) (imageSize : ImageSize) (platform : string)
    (st : State) :
  heuristics metadata imageSize platform = Ok st -> 0 <= st_score st <= 105.
Proof.
  intros E.
  destruct (heuristics_closed_form metadata imageSize platform
              (heuristics_returns _ _ _ _ E)) as [st' [E' [Hs _]]].
  assert (st' = st) by congruence. subst st'. rewrite Hs.
  pose proof (points_bounds 40 (given (tool_detected metadata))).
  pose proof (points_bounds 30 (timestamp_altered metadata)).
  pose proof (points_bounds 15 (exif_contradiction metadata)).
  pose proof (points_bounds 20 (geometry_mismatch platform imageSize)).
  lia.
Qed.



(** ** Merging with the deep-vision result, and the classification *)

Section Merge.

Lemma analyzeForensics_branches (mode : ScanMode)
    (metadata : option Metadata) (imageSize : ImageSize) (country : Country)
    (platform : option string) (base64Image : option string)
    (gw : Gateway VisionReply) (hst : State) :
  heuristics metadata imageSize (platform_or_default platform) = Ok hst ->
  analyzeForensics mode metadata imageSize country platform base64Image gw
  = match deepVision base64Image gw with
    | Some aiResult => Ok (visionResult aiResult (visionMerge aiResult hst))
    | None => Ok (fallbackResult hst)
    end.
Proof.
  intros E. unfold analyzeForensics, deepVision. rewrite E. simpl.
  destruct (truthy_str base64Image); [destruct gw|]; reflexivity.
Qed.

Lemma classify_clamp (hi mid s : Z) :
  hi < 100 -> mid < 100 ->
  classify hi mid (Z.min s 100) = classify hi mid s.
Proof.
  intros Hhi Hmid. unfold classify.
  destruct (Z.gtb_spec s hi), (Z.gtb_spec (Z.min s 100) hi); try lia;
    [reflexivity|].
  destruct (Z.gtb_spec s mid), (Z.gtb_spec (Z.min s 100) mid); try lia;
    reflexivity.
Qed.

Lemma classify_follows (hi mid : Z) (r : ScanResult) :
  mid <= hi -> riskLevel r = classify hi mid (score r) ->
  follows_table hi mid r.
Proof.
  intros Hle E. unfold follows_table. rewrite E. unfold classify.
  destruct (Z.gtb_spec (score r) hi), (Z.gtb_spec (score r) mid);
    repeat split; intros; try discriminate; try lia; try reflexivity.
Qed.

Lemma fallbackLayout_score (st : State) :
  st_score (fallbackLayout st) = st_score st.
Proof. unfold fallbackLayout. now destruct (String.eqb _ _). Qed.

Lemma fallbackLayout_reasons (st : State) :
  st_reasons (fallbackLayout st) = st_reasons st.
Proof. unfold fallbackLayout. now destruct (String.eqb _ _). Qed.

Lemma fallbackLayout_anomalies (st : State) :
  st_anomalies (fallbackLayout st) = st_anomalies st.
Proof. unfold fallbackLayout. now destruct (String.eqb _ _). Qed.

End Merge.

(** C2. With a deep-vision result, the final score of [analyzeForensics]
    (the local [score] after the merge, from which the result is built) is
    the maximum of the heuristic score and [aiScore] (0 when missing),
    neither their sum nor their average; the risk level is read from it and
    the returned field is that maximum, capped at 100. *)
Theorem merged_score_is_max (mode : ScanMode)
    (metadata : option Metadata) (imageSize : ImageSize) (country : Country)
    (platform : option string) (base64Image : option string)
    (gw : Gateway VisionReply) (hst : State) (aiResult : VisionReply) :
  heuristics metadata imageSize (platform_or_default platform) = Ok hst ->
  deepVision base64Image gw = Some aiResult ->
  let final := visionMerge aiResult hst in
  analyzeForensics mode metadata imageSize country platform base64Image gw
  = Ok (visionResult aiResult final)
  /\ st_score final = Z.max (st_score hst) (or_zero (aiScore aiResult))
  /\ (forall ai, aiScore aiResult = Some ai ->
                 st_score final = Z.max (st_score hst) ai)
  /\ (aiScore aiResult = None -> st_score final = st_score hst)
  /\ riskLevel (visionResult aiResult final)
     = classify 70 35 (Z.max (st_score hst) (or_zero (aiScore aiResult)))
  /\ score (visionResult aiResult final)
     = Z.min (Z.max (st_score hst) (or_zero (aiScore aiResult))) 100
  /\ (Z.max (st_score hst) (or_zero (aiScore aiResult)) <= 100 ->
      score (visionResult aiResult final)
      = Z.max (st_score hst) (or_zero (aiScore aiResult))).
Proof.
  intros Eh Ev final.
  pose proof (heuristics_score_bounds _ _ _ _ Eh) as Hb.
  rewrite (analyzeForensics_branches _ _ _ _ _ _ _ _ Eh), Ev.
  split; [reflexivity|]. split; [reflexivity|].
  split; [intros ai Hai; simpl; now rewrite Hai|].
  split; [intros Hai; simpl; rewrite Hai; simpl; lia|].
  split; [reflexivity|]. split; [reflexivity|].
  simpl. lia.
Qed.

Lemma merged_score_is_max_witness :
  exists r,
    analyzeForensics mode_payment (Some canva_metadata) hd_portrait "India"
      (Some "PhonePe") jpeg_image (Replied (reply_with_score 50)) = Ok r
    /\ score r = 60
    /\ score r <> 110
    /\ score r <> 55.
Proof.
  edestruct (merged_score_is_max mode_payment (Some canva_metadata)
               hd_portrait "India" (Some "PhonePe") jpeg_image
               (Replied (reply_with_score 50)))
    as [E [_ [_ [_ [_ [Hsc _]]]]]];
    [(vm_compute; reflexivity) | (vm_compute; reflexivity) |].
  eexists. split; [exact E|]. rewrite Hsc.
  split; [(vm_compute; reflexivity)|]. split; discriminate.
Defined.

(** C3. The risk level follows the table of its mode: thresholds 70 and 35
    for text, for link and for the AI-assisted forensic branch, thresholds 65
    and 30 for the heuristic-only forensic branch; the two tables differ. *)
Theorem risk_tables_by_mode :
  (forall text country gw,
      exists r, analyzeText text country gw = Ok r /\ follows_table 70 35 r)
  /\ (forall url country gw,
         exists r, analyzeLink url country gw = Ok r /\ follows_table 70 35 r)
  /\ (forall mode metadata imageSize country platform base64Image gw hst
             aiResult,
         heuristics metadata imageSize (platform_or_default platform) = Ok hst ->
         deepVision base64Image gw = Some aiResult ->
         exists r,
           analyzeForensics mode metadata imageSize country platform
             base64Image gw = Ok r
           /\ follows_table 70 35 r)
  /\ (forall mode metadata imageSize country platform base64Image gw hst,
         heuristics metadata imageSize (platform_or_default platform) = Ok hst ->
         deepVision base64Image gw = None ->
         exists r,
           analyzeForensics mode metadata imageSize country platform
             base64Image gw = Ok r
           /\ follows_table 65 30 r)
  /\ (exists s, classify 70 35 s <> classify 65 30 s).
Proof.
  split; [|split; [|split; [|split]]].
  - intros text country gw. unfold analyzeText.
    destruct (trim_is_empty text); [|destruct gw as [|aiResult]];
      eexists; (split; [reflexivity|]);
      apply classify_follows; try lia; simpl; try reflexivity.
    now rewrite classify_clamp by lia.
  - intros url country gw. unfold analyzeLink.
    destruct gw as [|aiResult]; eexists; (split; [reflexivity|]);
      apply classify_follows; try lia; reflexivity.
  - intros mode metadata imageSize country platform base64Image gw hst
           aiResult Eh Ev.
    rewrite (analyzeForensics_branches _ _ _ _ _ _ _ _ Eh), Ev.
    eexists; split; [reflexivity|].
    apply classify_follows; [lia|]. simpl. now rewrite classify_clamp by lia.
  - intros mode metadata imageSize country platform base64Image gw hst Eh Ev.
    rewrite (analyzeForensics_branches _ _ _ _ _ _ _ _ Eh), Ev.
    eexists; split; [reflexivity|].
    apply classify_follows; [lia|]. simpl. now rewrite classify_clamp by lia.
  - exists 68. discriminate.
Qed.

Lemma risk_tables_by_mode_witness :
  (exists r,
      analyzeForensics mode_payment (Some canva_metadata) hd_portrait "India"
        (Some "PhonePe") jpeg_image (Replied (reply_with_score 68)) = Ok r
      /\ follows_table 70 35 r /\ riskLevel r = Medium)
  /\ (exists r,
         analyzeForensics mode_payment (Some all_rules_metadata) hd_portrait
           "India" (Some "Paytm") None Rejected = Ok r
         /\ follows_table 65 30 r /\ riskLevel r = High).
Proof.
  destruct risk_tables_by_mode as [_ [_ [Hai [Hfb _]]]].
  split.
  - edestruct (Hai mode_payment (Some canva_metadata) hd_portrait "India"
                   (Some "PhonePe") jpeg_image (Replied (reply_with_score 68)))
      as [r [E Ht]]; [(vm_compute; reflexivity) | (vm_compute; reflexivity) |].
    exists r. split; [exact E|]. split; [exact Ht|].
    vm_compute in E. injection E as <-. (vm_compute; reflexivity).
  - edestruct (Hfb mode_payment (Some all_rules_metadata) hd_portrait "India"
                   (Some "Paytm") None Rejected)
      as [r [E Ht]]; [(vm_compute; reflexivity) | (vm_compute; reflexivity) |].
    exists r. split; [exact E|]. split; [exact Ht|].
    vm_compute in E. injection E as <-. (vm_compute; reflexivity).
Defined.

(** C4. Without a deep-vision result (no image supplied, or the remote call
    failed) the final score of [analyzeForensics] is the heuristic score
    alone (returned capped at 100), [layoutCheck] is read from that score
    alone (Failed above 60, Suspicious above 25 and up to 60, Passed
    otherwise) and the list of anomalies is empty. *)
Theorem heuristic_only_fallback (mode : ScanMode)
    (metadata : option Metadata) (imageSize : ImageSize) (country : Country)
    (platform : option string) (base64Image : option string)
    (gw : Gateway VisionReply) (hst : State) :
  heuristics metadata imageSize (platform_or_default platform) = Ok hst ->
  truthy_str base64Image = false \/ gw = Rejected ->
  let r := fallbackResult hst in
  analyzeForensics mode metadata imageSize country platform base64Image gw
  = Ok r
  /\ st_score (fallbackLayout hst) = st_score hst
  /\ score r = Z.min (st_score hst) 100
  /\ layoutCheck r = Some (layout_of_score (st_score hst))
  /\ layoutCheck r = Some (layout_of_score (score r))
  /\ (st_score hst > 60 -> layoutCheck r = Some "Failed")
  /\ (25 < st_score hst <= 60 -> layoutCheck r = Some "Suspicious")
  /\ (st_score hst <= 25 -> layoutCheck r = Some "Passed")
  /\ anomalies r = Some [].
Proof.
  intros Eh Hno r. subst r.
  assert (Ev : deepVision base64Image gw = None).
  { unfold deepVision. destruct Hno as [-> | ->]; [reflexivity|].
    now destruct (truthy_str base64Image). }
  destruct (heuristics_closed_form metadata imageSize
              (platform_or_default platform) (heuristics_returns _ _ _ _ Eh))
    as [st' [E' [_ [_ [Ha Hl]]]]].
  assert (st' = hst) by congruence. subst st'.
  rewrite (analyzeForensics_branches _ _ _ _ _ _ _ _ Eh), Ev.
  assert (Hlay : layoutCheck (fallbackResult hst)
                 = Some (layout_of_score (st_score hst))).
  { unfold fallbackResult, fallbackLayout. now rewrite Hl. }
  assert (Hsc : score (fallbackResult hst) = Z.min (st_score hst) 100).
  { unfold fallbackResult. cbn [score]. now rewrite fallbackLayout_score. }
  split; [reflexivity|]. split; [apply fallbackLayout_score|].
  split; [exact Hsc|]. split; [exact Hlay|].
  split.
  { rewrite Hlay, Hsc. f_equal. unfold layout_of_score.
    destruct (Z.gtb_spec (st_score hst) 60),
             (Z.gtb_spec (Z.min (st_score hst) 100) 60); try lia;
      [reflexivity|].
    destruct (Z.gtb_spec (st_score hst) 25),
             (Z.gtb_spec (Z.min (st_score hst) 100) 25); try lia;
      reflexivity. }
  rewrite Hlay. unfold layout_of_score.
  split; [|split; [|split]].
  - intros H. destruct (Z.gtb_spec (st_score hst) 60); [reflexivity | lia].
  - intros H. destruct (Z.gtb_spec (st_score hst) 60); [lia|].
    destruct (Z.gtb_spec (st_score hst) 25); [reflexivity | lia].
  - intros H. destruct (Z.gtb_spec (st_score hst) 60); [lia|].
    destruct (Z.gtb_spec (st_score hst) 25); [lia | reflexivity].
  - unfold fallbackResult. cbn [anomalies].
    now rewrite fallbackLayout_anomalies, Ha.
Qed.

Lemma heuristic_only_fallback_witness :
  exists r,
    analyzeForensics mode_image (Some canva_exif_metadata) hd_portrait
      "India" None jpeg_image Rejected = Ok r
    /\ score r = 55
    /\ layoutCheck r = Some "Suspicious"
    /\ riskLevel r = Medium
    /\ anomalies r = Some [].
Proof.
  edestruct (heuristic_only_fallback mode_image (Some canva_exif_metadata)
               hd_portrait "India" None jpeg_image Rejected)
    as [E [_ [Hs [Hl [_ [_ [_ [_ Ha]]]]]]]];
    [(vm_compute; reflexivity) | right; reflexivity |].
  eexists. split; [exact E|].
  split; [rewrite Hs; reflexivity|].
  split; [rewrite Hl; reflexivity|].
  split; [(vm_compute; reflexivity) | exact Ha].
Defined.

(** A reply that parses to an empty object leaves the heuristic score and
    takes every default. *)
Example empty_reply_defaults :
  analyzeForensics mode_payment (Some canva_metadata) hd_portrait "India"
    (Some "PhonePe") jpeg_image (Replied empty_VisionReply)
  = Ok {| riskLevel := Medium; score := 60;
          explanation := Some "Forensic vision audit complete.";
          reasons :=
            Some [ "Modification Signature: File processed via Canva 2.1.";
                   "Geometric Mismatch: Screenshot dimensions do not match the PhonePe standard." ];
          advice :=
            Some [ "Cross-verify this Transaction ID in your banking app.";
                   "Check for blurred edges around the currency symbol.";
                   "Check if the fonts are consistent across the entire screen." ];
          layoutCheck := Some "Suspicious";
          anomalies := Some [] |}.
Proof. (vm_compute; reflexivity). Qed.

(** C10. Whatever the remote model replies, the score [analyzeForensics]
    returns is at least the heuristic score capped at 100: the merge is a
    maximum, with a missing [aiScore] read as 0, so it cannot lower the
    local score. *)
Theorem vision_never_lowers_score (mode : ScanMode)
    (metadata : option Metadata) (imageSize : ImageSize) (country : Country)
    (platform : option string) (base64Image : option string)
    (gw : Gateway VisionReply) (hst : State) :
  heuristics metadata imageSize (platform_or_default platform) = Ok hst ->
  exists r,
    analyzeForensics mode metadata imageSize country platform base64Image gw
    = Ok r
    /\ score r >= Z.min (st_score hst) 100
    /\ (forall aiResult,
          deepVision base64Image gw = Some aiResult ->
          score r
          = Z.min (Z.max (st_score hst) (or_zero (aiScore aiResult))) 100)
    /\ (deepVision base64Image gw = None ->
        score r = Z.min (st_score hst) 100).
Proof.
  intros Eh.
  rewrite (analyzeForensics_branches _ _ _ _ _ _ _ _ Eh).
  destruct (deepVision base64Image gw) as [aiResult|];
    eexists; (split; [reflexivity|]).
  - split; [simpl; lia|]. split; [|discriminate].
    intros a Ha. injection Ha as <-. reflexivity.
  - unfold fallbackResult. cbn [score]. rewrite fallbackLayout_score.
    split; [lia|]. split; [discriminate | reflexivity].
Qed.

Lemma vision_never_lowers_score_witness :
  exists r,
    analyzeForensics mode_payment (Some canva_metadata) hd_portrait "India"
      (Some "PhonePe") jpeg_image (Replied (reply_with_score 5)) = Ok r
    /\ score r >= 60.
Proof.
  edestruct (vision_never_lowers_score mode_payment (Some canva_metadata)
               hd_portrait "India" (Some "PhonePe") jpeg_image
               (Replied (reply_with_score 5)))
    as [r [E [Hge _]]]; [(vm_compute; reflexivity)|].
  exists r. split; [exact E|]. exact Hge.
Defined.

(** ** Score range *)

(** The text path passes a negative score of the remote model through. *)
Lemma score_range_counterexample :
  exists r,
    analyzeText "Your parcel is waiting" "India" (Replied negative_reply)
    = Ok r
    /\ score r = -5
    /\ ~ (0 <= score r <= 100).
Proof.
  eexists. split; [(vm_compute; reflexivity)|]. split; [(vm_compute; reflexivity)|]. simpl. lia.
Qed.

(** C5, amended. [analyzeText] and [analyzeForensics] never return a score
    above 100, whether all four scoring rules fire (105 is returned as 100)
    or the remote model supplies a larger score; [analyzeForensics] never
    returns a negative score; [analyzeText] returns the smaller of the
    remote model's score and 100, hence a non-negative score whenever that
    score is non-negative or missing, and a negative score unchanged. *)
Theorem scores_capped_at_100 :
  (forall text country gw,
      exists r,
        analyzeText text country gw = Ok r
        /\ score r <= 100
        /\ ((forall aiResult, gw = Replied aiResult ->
                              0 <= or_zero (t_score aiResult)) ->
            0 <= score r)
        /\ (forall aiResult,
              all_space text = false -> gw = Replied aiResult ->
              score r = Z.min (or_zero (t_score aiResult)) 100
              /\ (or_zero (t_score aiResult) < 0 ->
                  score r = or_zero (t_score aiResult))))
  /\ (forall mode metadata imageSize country platform base64Image gw hst,
         heuristics metadata imageSize (platform_or_default platform) = Ok hst ->
         exists r,
           analyzeForensics mode metadata imageSize country platform
             base64Image gw = Ok r
           /\ 0 <= score r <= 100).
Proof.
  split.
  - intros text country gw. unfold analyzeText, trim_is_empty.
    destruct (all_space text); [|destruct gw as [|aiResult]];
      eexists; (split; [reflexivity|]); simpl; (split; [lia|]);
      (split; [intros H; try lia|]).
    + intros a Hne. discriminate.
    + intros a _ Ha. discriminate.
    + specialize (H aiResult eq_refl). lia.
    + intros a _ Ha. injection Ha as <-. split; [reflexivity | lia].
  - intros mode metadata imageSize country platform base64Image gw hst Eh.
    pose proof (heuristics_score_bounds _ _ _ _ Eh) as Hb.
    rewrite (analyzeForensics_branches _ _ _ _ _ _ _ _ Eh).
    destruct (deepVision base64Image gw) as [aiResult|];
      eexists; (split; [reflexivity|]).
    + simpl. lia.
    + unfold fallbackResult. cbn [score]. rewrite fallbackLayout_score. lia.
Qed.

Lemma scores_capped_at_100_witness :
  (exists r,
      analyzeForensics mode_payment (Some all_rules_metadata) hd_portrait
        "India" (Some "PhonePe") None Rejected = Ok r
      /\ score r = 100)
  /\ (exists r,
         analyzeForensics mode_payment (Some canva_metadata) hd_portrait
           "India" (Some "PhonePe") jpeg_image (Replied (reply_with_score 150))
         = Ok r
         /\ 0 <= score r <= 100)
  /\ (exists r,
         analyzeText "Your parcel is waiting" "India"
           (Replied (text_reply_scoring (Some (-7)))) = Ok r
         /\ score r = -7)
  /\ (exists r,
         analyzeText "Your parcel is waiting" "India"
           (Replied (text_reply_scoring (Some 250))) = Ok r
         /\ score r = 100).
Proof.
  destruct scores_capped_at_100 as [Ht Hf].
  split; [|split; [|split]].
  - edestruct (Hf mode_payment (Some all_rules_metadata) hd_portrait "India"
                  (Some "PhonePe") None Rejected) as [r [E Hr]];
      [vm_compute; reflexivity|].
    exists r. split; [exact E|]. vm_compute in E. injection E as <-.
    reflexivity.
  - edestruct (Hf mode_payment (Some canva_metadata) hd_portrait "India"
                  (Some "PhonePe") jpeg_image (Replied (reply_with_score 150)))
      as [r [E Hr]]; [vm_compute; reflexivity|].
    exists r. split; [exact E | exact Hr].
  - destruct (Ht "Your parcel is waiting" "India"
                 (Replied (text_reply_scoring (Some (-7)))))
      as [r [E [_ [_ Hs]]]].
    exists r. split; [exact E|].
    destruct (Hs (text_reply_scoring (Some (-7))) eq_refl eq_refl)
      as [_ Hneg].
    rewrite Hneg; [reflexivity | simpl; lia].
  - destruct (Ht "Your parcel is waiting" "India"
                 (Replied (text_reply_scoring (Some 250))))
      as [r [E [_ [_ Hs]]]].
    exists r. split; [exact E|].
    destruct (Hs (text_reply_scoring (Some 250)) eq_refl eq_refl)
      as [Hmin _].
    rewrite Hmin. reflexivity.
Defined.

(** ** Failure of the remote call *)

(** On the link path the degraded result has its own explanation. *)
Lemma link_failure_counterexample :
  exists r,
    analyzeLink "http://paypa1-secure.example" "India" Rejected = Ok r
    /\ explanation r = Some "Link analysis failed."
    /\ explanation r <> Some "Analysis failed.".
Proof.
  eexists. split; [(vm_compute; reflexivity)|]. split; [(vm_compute; reflexivity)|]. discriminate.
Qed.

(** C6, amended. A failure of the remote call never reaches the caller: the
    text path returns Low, score 0, explanation "Analysis failed.", no
    reasons and no advice; the link path returns the same with the
    explanation "Link analysis failed."; the forensic path returns the
    heuristic-only fallback result. *)
Theorem gateway_failure_is_caught :
  (forall text country,
      trim_is_empty text = false ->
      analyzeText text country Rejected = Ok (degraded "Analysis failed."))
  /\ (forall url country,
         analyzeLink url country Rejected
         = Ok (degraded "Link analysis failed."))
  /\ (forall mode metadata imageSize country platform base64Image hst,
         heuristics metadata imageSize (platform_or_default platform) = Ok hst ->
         analyzeForensics mode metadata imageSize country platform
           base64Image Rejected
         = Ok (fallbackResult hst)).
Proof.
  split; [|split].
  - intros text country H. unfold analyzeText. now rewrite H.
  - reflexivity.
  - intros mode metadata imageSize country platform base64Image hst Eh.
    unfold analyzeForensics. rewrite Eh. simpl.
    now destruct (truthy_str base64Image).
Qed.

Lemma gateway_failure_is_caught_witness :
  analyzeText "Your parcel is waiting" "India" Rejected
  = Ok (degraded "Analysis failed.")
  /\ exists r,
       analyzeForensics mode_image (Some canva_exif_metadata) hd_portrait
         "India" None jpeg_image Rejected = Ok r
       /\ explanation r = Some "Basic heuristic forensic audit complete.".
Proof.
  destruct gateway_failure_is_caught as [Ht [_ Hf]].
  split.
  - apply Ht. (vm_compute; reflexivity).
  - eexists. split.
    + apply (Hf mode_image (Some canva_exif_metadata) hd_portrait "India"
                None jpeg_image). (vm_compute; reflexivity).
    + (vm_compute; reflexivity).
Defined.

(** ** Advice of the link path *)

(** When the remote call fails the advice of the link path is empty. *)
Lemma link_advice_counterexample :
  exists r,
    analyzeLink "http://paypa1-secure.example" "India" Rejected = Ok r
    /\ advice r = Some []
    /\ ~ In misspellings_tip (or_nil (advice r)).
Proof.
  eexists. split; [(vm_compute; reflexivity)|]. split; [(vm_compute; reflexivity)|]. simpl. tauto.
Qed.

(** C9, amended. Whenever the remote call succeeds, whatever it replies,
    the advice of [analyzeLink] is the fixed tip to check for misspellings;
    when the remote call fails, the advice is empty. *)
Theorem link_advice :
  (forall url country aiResult,
      exists r,
        analyzeLink url country (Replied aiResult) = Ok r
        /\ advice r = Some [misspellings_tip]
        /\ In misspellings_tip (or_nil (advice r)))
  /\ (forall url country,
         exists r,
           analyzeLink url country Rejected = Ok r /\ advice r = Some []).
Proof.
  split.
  - intros url country aiResult. eexists. split; [reflexivity|].
    split; [reflexivity|]. simpl. now left.
  - intros url country. eexists. split; reflexivity.
Qed.

(** ** A latitude without a longitude *)

(** C7. [analyzeForensics] is meant never to raise, whatever the metadata
    bag; with [{ gpsLatitude: 12.34 }] it throws a [TypeError] before any
    result is built, for every other argument and every reply. *)
Theorem latitude_without_longitude_throws :
  forall mode imageSize country platform base64Image gw,
    analyzeForensics mode (Some latitude_only) imageSize country platform
      base64Image gw
    = Throw (TypeError
               "Cannot read properties of undefined (reading 'toFixed')").
Proof. (vm_compute; reflexivity). Qed.

(** ** Distinct reasons *)

(** C8. Reasons are meant to be distinct in every result; the text path
    returns the reasons of the remote model as they come, repeated strings
    included. *)
Theorem text_reasons_not_deduplicated :
  exists r l,
    analyzeText "You won a prize, claim now" "India" (Replied repeating_reply)
    = Ok r
    /\ reasons r = Some l
    /\ l = ["Urgent tone"; "Unknown sender"; "Urgent tone"]
    /\ ~ NoDup l.
Proof.
  eexists. eexists. split; [(vm_compute; reflexivity)|]. split; [(vm_compute; reflexivity)|].
  split; [(vm_compute; reflexivity)|].
  intros H. inversion H as [|a l Hnin _]. apply Hnin. simpl. tauto.
Qed.

(** X13. On both forensic paths the reasons are the first occurrences of the
    heuristic reasons followed by those of the remote model. *)
Lemma forensic_reasons_distinct (mode : ScanMode)
    (metadata : option Metadata) (imageSize : ImageSize) (country : Country)
    (platform : option string) (base64Image : option string)
    (gw : Gateway VisionReply) (hst : State) :
  heuristics metadata imageSize (platform_or_default platform) = Ok hst ->
  exists r l,
    analyzeForensics mode metadata imageSize country platform base64Image gw
    = Ok r
    /\ reasons r = Some l
    /\ NoDup l
    /\ l = first_occurrences
             (st_reasons hst
              ++ match deepVision base64Image gw with
                 | Some aiResult => or_nil (aiReasons aiResult)
                 | None => []
                 end)%list
    /\ (forall a, In a l <->
                  In a (st_reasons hst)
                  \/ exists aiResult,
                       deepVision base64Image gw = Some aiResult
                       /\ In a (or_nil (aiReasons aiResult))).
Proof.
  intros Eh.
  rewrite (analyzeForensics_branches _ _ _ _ _ _ _ _ Eh).
  destruct (deepVision base64Image gw) as [aiResult|].
  - eexists. eexists. split; [reflexivity|]. split; [reflexivity|].
    cbn [visionMerge st_reasons].
    rewrite spread_new_Set_first_occurrences.
    split; [apply first_occurrences_NoDup|]. split; [reflexivity|].
    intros a. rewrite first_occurrences_In, in_app_iff. split.
    + intros [H|H]; [now left | right; now exists aiResult].
    + intros [H|[a' [Ha' H]]]; [now left | right].
      now injection Ha' as <-.
  - eexists. eexists. split; [reflexivity|]. split; [reflexivity|].
    cbn [fallbackResult]. rewrite fallbackLayout_reasons.
    rewrite spread_new_Set_first_occurrences, app_nil_r.
    split; [apply first_occurrences_NoDup|]. split; [reflexivity|].
    intros a. rewrite first_occurrences_In. split.
    + now left.
    + intros [H|[a' [Ha' _]]]; [assumption | discriminate].
Qed.

(** * Further properties of [engine.ts] *)

(** ** Blank messages *)

(** X1. The remote model is bypassed exactly for the messages made of white
    space only: these, and no others, get the fixed "Please enter a message."
    result whatever the remote call would have produced. *)
Theorem blank_text_short_circuits (text : string) (country : Country) :
  all_space text = true <->
  (forall gw, analyzeText text country gw = Ok please_enter).
Proof.
  split.
  - intros H gw. unfold analyzeText, trim_is_empty. now rewrite H.
  - intros H. specialize (H Rejected). unfold analyzeText, trim_is_empty in H.
    destruct (all_space text); [reflexivity | discriminate].
Qed.

Lemma blank_text_short_circuits_witness :
  analyzeText "   " "India" (Replied repeating_reply) = Ok please_enter.
Proof.
  apply (proj1 (blank_text_short_circuits "   " "India")). (vm_compute; reflexivity).
Defined.

(** ** The heuristic score and the fallback verdicts *)

(** X2. The heuristic score lies between 0 and 105 and is a multiple of 5;
    the audit produces no anomaly and leaves the layout verdict open. *)
Theorem heuristic_score_range
    (metadata : option Metadata) (imageSize : ImageSize) (platform : string)
    (st : State) :
  heuristics metadata imageSize platform = Ok st ->
  0 <= st_score st <= 105
  /\ (st_score st) mod 5 = 0
  /\ (List.length (st_reasons st) <= 5)%nat
  /\ st_anomalies st = []
  /\ st_layoutCheck st = "N/A".
Proof.
  intros E.
  destruct (heuristics_closed_form metadata imageSize platform
              (heuristics_returns _ _ _ _ E)) as [st' [E' [Hs [Hr [Ha Hl]]]]].
  assert (st' = st) by congruence. subst st'.
  split; [now apply (heuristics_score_bounds _ _ _ _ E)|].
  split.
  { rewrite Hs.
    destruct (given (tool_detected metadata)), (timestamp_altered metadata),
      (exif_contradiction metadata), (geometry_mismatch platform imageSize);
      reflexivity. }
  split; [|now split].
  rewrite Hr.
  destruct (tool_detected metadata), (timestamp_altered metadata),
    (exif_contradiction metadata), (gps_coordinates metadata),
    (geometry_mismatch platform imageSize); simpl; lia.
Qed.

Lemma heuristic_score_range_witness :
  exists st,
    heuristics (Some all_rules_metadata) hd_portrait "PhonePe" = Ok st
    /\ 0 <= st_score st <= 105.
Proof.
  eexists. split; [(vm_compute; reflexivity)|].
  apply (heuristic_score_range (Some all_rules_metadata) hd_portrait "PhonePe").
  (vm_compute; reflexivity).
Defined.

(** X3. In a heuristic-only result the two verdicts agree: High risk comes
    with a Failed layout, a Passed layout comes with Low risk, and Medium
    risk never comes with a Passed layout. *)
Theorem fallback_verdicts_agree (mode : ScanMode)
    (metadata : option Metadata) (imageSize : ImageSize) (country : Country)
    (platform : option string) (base64Image : option string)
    (gw : Gateway VisionReply) (r : ScanResult) :
  deepVision base64Image gw = None ->
  analyzeForensics mode metadata imageSize country platform base64Image gw
  = Ok r ->
  (riskLevel r = High -> layoutCheck r = Some "Failed")
  /\ (layoutCheck r = Some "Passed" -> riskLevel r = Low)
  /\ (riskLevel r = Medium -> layoutCheck r <> Some "Passed")
  /\ (layoutCheck r = Some "Failed" \/ layoutCheck r = Some "Suspicious"
      \/ layoutCheck r = Some "Passed").
Proof.
  intros Ev E.
  destruct (heuristics metadata imageSize (platform_or_default platform))
    as [hst|e] eqn:Eh.
  2:{ unfold analyzeForensics in E. rewrite Eh in E. discriminate. }
  rewrite (analyzeForensics_branches _ _ _ _ _ _ _ _ Eh), Ev in E.
  injection E as <-.
  destruct (heuristics_closed_form metadata imageSize
              (platform_or_default platform) (heuristics_returns _ _ _ _ Eh))
    as [st' [E' [_ [_ [_ Hl]]]]].
  assert (st' = hst) by congruence. subst st'.
  unfold fallbackResult, fallbackLayout. rewrite Hl. cbn.
  unfold classify.
  destruct (Z.gtb_spec (st_score hst) 65), (Z.gtb_spec (st_score hst) 30),
    (Z.gtb_spec (st_score hst) 60), (Z.gtb_spec (st_score hst) 25);
    try lia; repeat split; intros; try discriminate; try reflexivity;
    auto.
Qed.

Lemma fallback_verdicts_agree_witness :
  exists r,
    analyzeForensics mode_payment (Some all_rules_metadata) hd_portrait
      "India" (Some "PhonePe") None Rejected = Ok r
    /\ riskLevel r = High /\ layoutCheck r = Some "Failed".
Proof.
  eexists. split; [(vm_compute; reflexivity)|]. split; [(vm_compute; reflexivity)|].
  eapply (fallback_verdicts_agree mode_payment (Some all_rules_metadata)
            hd_portrait "India" (Some "PhonePe") None Rejected);
    (vm_compute; reflexivity).
Defined.

(** ** What a reply of the remote model can and cannot change *)

Lemma classify_monotone (hi mid s1 s2 : Z) :
  mid <= hi -> s1 <= s2 ->
  risk_rank (classify hi mid s1) <= risk_rank (classify hi mid s2).
Proof.
  intros Hle H. unfold classify.
  destruct (Z.gtb_spec s1 hi), (Z.gtb_spec s2 hi),
    (Z.gtb_spec s1 mid), (Z.gtb_spec s2 mid); simpl; lia.
Qed.

(** X4. A reply can lower the risk level: with a heuristic score above 65
    and up to 70, the heuristic-only result is High, while the result merged
    with any reply whose score is at most 70 (or missing) is Medium. *)
Theorem reply_can_lower_risk_level (mode : ScanMode)
    (metadata : option Metadata) (imageSize : ImageSize) (country : Country)
    (platform : option string) (base64Image : option string)
    (hst : State) (aiResult : VisionReply) :
  heuristics metadata imageSize (platform_or_default platform) = Ok hst ->
  truthy_str base64Image = true ->
  65 < st_score hst <= 70 ->
  or_zero (aiScore aiResult) <= 70 ->
  exists r_ai r_local,
    analyzeForensics mode metadata imageSize country platform base64Image
      (Replied aiResult) = Ok r_ai
    /\ analyzeForensics mode metadata imageSize country platform base64Image
         Rejected = Ok r_local
    /\ riskLevel r_local = High
    /\ riskLevel r_ai = Medium
    /\ score r_local <= score r_ai.
Proof.
  intros Eh Hi Hs Ha.
  rewrite !(analyzeForensics_branches _ _ _ _ _ _ _ _ Eh).
  unfold deepVision. rewrite Hi.
  eexists. eexists. split; [reflexivity|]. split; [reflexivity|].
  unfold fallbackResult. cbn [riskLevel score visionResult visionMerge st_score].
  rewrite fallbackLayout_score. unfold classify.
  destruct (Z.gtb_spec (st_score hst) 65); [|lia].
  destruct (Z.gtb_spec (Z.max (st_score hst) (or_zero (aiScore aiResult))) 70);
    [lia|].
  destruct (Z.gtb_spec (Z.max (st_score hst) (or_zero (aiScore aiResult))) 35);
    [|lia].
  repeat split; lia.
Qed.

Lemma reply_can_lower_risk_level_witness :
  exists r_ai r_local,
    analyzeForensics mode_payment (Some tool_and_timestamp) hd_portrait
      "India" None jpeg_image (Replied (reply_with_score 10)) = Ok r_ai
    /\ analyzeForensics mode_payment (Some tool_and_timestamp) hd_portrait
         "India" None jpeg_image Rejected = Ok r_local
    /\ riskLevel r_local = High
    /\ riskLevel r_ai = Medium
    /\ score r_local <= score r_ai.
Proof.
  eapply (reply_can_lower_risk_level mode_payment (Some tool_and_timestamp)
            hd_portrait "India" None jpeg_image).
  - (vm_compute; reflexivity).
  - (vm_compute; reflexivity).
  - simpl. lia.
  - simpl. lia.
Defined.

(** X5. Outside the two gaps between the tables (heuristic scores above 30
    and up to 35, above 65 and up to 70) a reply never lowers the risk
    level below the heuristic-only one. *)
Theorem reply_keeps_risk_level (mode : ScanMode)
    (metadata : option Metadata) (imageSize : ImageSize) (country : Country)
    (platform : option string) (base64Image : option string)
    (hst : State) (aiResult : VisionReply) :
  heuristics metadata imageSize (platform_or_default platform) = Ok hst ->
  truthy_str base64Image = true ->
  ~ (30 < st_score hst <= 35) -> ~ (65 < st_score hst <= 70) ->
  exists r_ai r_local,
    analyzeForensics mode metadata imageSize country platform base64Image
      (Replied aiResult) = Ok r_ai
    /\ analyzeForensics mode metadata imageSize country platform base64Image
         Rejected = Ok r_local
    /\ risk_rank (riskLevel r_local) <= risk_rank (riskLevel r_ai).
Proof.
  intros Eh Hi H1 H2.
  rewrite !(analyzeForensics_branches _ _ _ _ _ _ _ _ Eh).
  unfold deepVision. rewrite Hi.
  eexists. eexists. split; [reflexivity|]. split; [reflexivity|].
  unfold fallbackResult. cbn [riskLevel visionResult visionMerge st_score].
  rewrite fallbackLayout_score. unfold classify.
  destruct (Z.gtb_spec (st_score hst) 65), (Z.gtb_spec (st_score hst) 30),
    (Z.gtb_spec (Z.max (st_score hst) (or_zero (aiScore aiResult))) 70),
    (Z.gtb_spec (Z.max (st_score hst) (or_zero (aiScore aiResult))) 35);
    simpl; lia.
Qed.

Lemma reply_keeps_risk_level_witness :
  exists r_ai r_local,
    analyzeForensics mode_payment (Some canva_metadata) hd_portrait
      "India" (Some "PhonePe") jpeg_image (Replied (reply_with_score 5))
    = Ok r_ai
    /\ analyzeForensics mode_payment (Some canva_metadata) hd_portrait
         "India" (Some "PhonePe") jpeg_image Rejected = Ok r_local
    /\ risk_rank (riskLevel r_local) <= risk_rank (riskLevel r_ai).
Proof.
  eapply (reply_keeps_risk_level mode_payment (Some canva_metadata)
            hd_portrait "India" (Some "PhonePe") jpeg_image).
  - (vm_compute; reflexivity).
  - (vm_compute; reflexivity).
  - simpl. lia.
  - simpl. lia.
Defined.

(** X6. The merged result grows with the score of the reply: a larger
    [aiScore] gives a score and a risk level at least as high. *)
Theorem merged_result_monotone (mode : ScanMode)
    (metadata : option Metadata) (imageSize : ImageSize) (country : Country)
    (platform : option string) (base64Image : option string)
    (hst : State) (a1 a2 : VisionReply) :
  heuristics metadata imageSize (platform_or_default platform) = Ok hst ->
  truthy_str base64Image = true ->
  or_zero (aiScore a1) <= or_zero (aiScore a2) ->
  exists r1 r2,
    analyzeForensics mode metadata imageSize country platform base64Image
      (Replied a1) = Ok r1
    /\ analyzeForensics mode metadata imageSize country platform base64Image
         (Replied a2) = Ok r2
    /\ score r1 <= score r2
    /\ risk_rank (riskLevel r1) <= risk_rank (riskLevel r2).
Proof.
  intros Eh Hi Hle.
  rewrite !(analyzeForensics_branches _ _ _ _ _ _ _ _ Eh).
  unfold deepVision. rewrite Hi.
  eexists. eexists. split; [reflexivity|]. split; [reflexivity|].
  cbn [riskLevel score visionResult visionMerge st_score].
  split; [lia|]. apply classify_monotone; lia.
Qed.

Lemma merged_result_monotone_witness :
  exists r1 r2,
    analyzeForensics mode_payment (Some canva_metadata) hd_portrait
      "India" (Some "PhonePe") jpeg_image (Replied (reply_with_score 50))
    = Ok r1
    /\ analyzeForensics mode_payment (Some canva_metadata) hd_portrait
         "India" (Some "PhonePe") jpeg_image (Replied (reply_with_score 90))
       = Ok r2
    /\ score r1 <= score r2
    /\ risk_rank (riskLevel r1) <= risk_rank (riskLevel r2).
Proof.
  eapply (merged_result_monotone mode_payment (Some canva_metadata)
            hd_portrait "India" (Some "PhonePe") jpeg_image).
  - (vm_compute; reflexivity).
  - (vm_compute; reflexivity).
  - simpl. lia.
Defined.

(** ** The geometry rule *)

Lemma round64_Qeq (q1 q2 : Q) : (q1 == q2)%Q -> round64 q1 = round64 q2.
Proof.
  intros H. unfold round64. now rewrite (Qred_complete _ _ H).
Qed.

Lemma ratio_of_scaled (k : Z) (imageSize : ImageSize) :
  k <> 0 -> ratio_of (scaled k imageSize) = ratio_of imageSize.
Proof.
  intros Hk. unfold ratio_of, scaled, div64. cbn [img_width img_height].
  set (w := img_width imageSize). set (h := img_height imageSize).
  destruct (Z.eq_dec w 0) as [E|E].
  - rewrite E, Z.mul_0_r. reflexivity.
  - assert (H1 : Qeq_bool (inject_Z (k * w)) 0 = false).
    { destruct (Qeq_bool (inject_Z (k * w)) 0) eqn:Eb; [|reflexivity].
      apply Qeq_bool_eq in Eb. unfold Qeq in Eb. simpl in Eb. lia. }
    assert (H2 : Qeq_bool (inject_Z w) 0 = false).
    { destruct (Qeq_bool (inject_Z w) 0) eqn:Eb; [|reflexivity].
      apply Qeq_bool_eq in Eb. unfold Qeq in Eb. simpl in Eb. lia. }
    rewrite H1, H2. apply round64_Qeq. rewrite !inject_Z_mult. field. split.
    + intros H. apply E. now apply (inject_Z_injective _ 0).
    + intros H. apply Hk. now apply (inject_Z_injective _ 0).
Qed.

(** X7. The verdict does not depend on the resolution: multiplying width
    and height by the same non-zero factor changes nothing in the result
    (the quotient of the scaled sides rounds to the same double). *)
Theorem result_is_resolution_independent (k : Z) (mode : ScanMode)
    (metadata : option Metadata) (imageSize : ImageSize) (country : Country)
    (platform : option string) (base64Image : option string)
    (gw : Gateway VisionReply) :
  k <> 0 ->
  analyzeForensics mode metadata (scaled k imageSize) country platform
    base64Image gw
  = analyzeForensics mode metadata imageSize country platform base64Image gw.
Proof.
  intros Hk. unfold analyzeForensics, heuristics, aspectAudit, isStandard.
  now rewrite (ratio_of_scaled k imageSize Hk).
Qed.

Lemma result_is_resolution_independent_witness :
  analyzeForensics mode_payment (Some canva_metadata)
    (scaled 2 hd_portrait) "India" (Some "Paytm") None Rejected
  = analyzeForensics mode_payment (Some canva_metadata) hd_portrait "India"
      (Some "Paytm") None Rejected.
Proof.
  apply result_is_resolution_independent. lia.
Defined.

(** X8. An image of width 0 is flagged on every registered platform:
    the ratio is then infinite or undefined and matches no accepted ratio. *)
Theorem zero_width_is_flagged (platform : string) (imageSize : ImageSize)
    (template : PlatformTemplate) (st : State) :
  PLATFORM_TEMPLATES platform = Some (Template template) ->
  img_width imageSize = 0 ->
  aspectAudit platform imageSize st
  = Ok (flag 20 (geometryReason platform) st).
Proof.
  intros Ht Hw. unfold aspectAudit, isStandard, ratio_of.
  rewrite Ht, Hw.
  change (div64 (inject_Z (img_height imageSize)) (inject_Z 0))
    with NotFinite.
  assert (E : existsb (near NotFinite) (aspectRatios template) = false).
  { induction (aspectRatios template) as [|r l IH]; [reflexivity|exact IH]. }
  now rewrite E.
Qed.

Lemma zero_width_is_flagged_witness :
  aspectAudit "PayPal" {| img_width := 0; img_height := 1920 |} initial
  = Ok (flag 20 (geometryReason "PayPal") initial).
Proof.
  eapply (zero_width_is_flagged "PayPal"
            {| img_width := 0; img_height := 1920 |}).
  - vm_compute. reflexivity.
  - reflexivity.
Defined.

(** X9. On every registered platform an image whose height/width lies
    more than 0.101 outside the band of accepted ratios, at most 15091/9000
    (every square or landscape image, for one) or at least 20909/9000, is
    flagged, the binary64 rounding of the ratio and of the difference
    included. *)
Theorem out_of_band_is_flagged (platform : string) (imageSize : ImageSize)
    (template : PlatformTemplate) (st : State) :
  PLATFORM_TEMPLATES platform = Some (Template template) ->
  0 < img_width imageSize ->
  9000 * img_height imageSize <= 15091 * img_width imageSize
  \/ 20909 * img_width imageSize <= 9000 * img_height imageSize ->
  aspectAudit platform imageSize st
  = Ok (flag 20 (geometryReason platform) st).
Proof.
  intros Ht Hw Hband. unfold aspectAudit, isStandard. rewrite Ht.
  destruct (registry_ratios _ _ Ht) as [Hr _].
  assert (E : existsb (near (ratio_of imageSize)) (aspectRatios template)
              = false).
  { apply not_true_is_false. intros Hex. apply existsb_exists in Hex.
    destruct Hex as [r [Hin Hnear]].
    destruct (Hr r Hin) as [x [-> Hx]].
    unfold ratio_of in Hnear.
    rewrite (far_is_not_near _ _ _ Hw Hband Hx) in Hnear. discriminate. }
  now rewrite E.
Qed.

Lemma out_of_band_is_flagged_witness :
  aspectAudit "Google Pay" {| img_width := 1920; img_height := 1080 |}
    initial
  = Ok (flag 20 (geometryReason "Google Pay") initial).
Proof.
  eapply (out_of_band_is_flagged "Google Pay"
            {| img_width := 1920; img_height := 1080 |}).
  - vm_compute. reflexivity.
  - reflexivity.
  - left. simpl. lia.
Defined.

(** X10. An image whose height/width is within 0.099 of 19.5/9 (between
    6203/3000 and 6797/3000) is never flagged, whether the platform is
    registered or not in the registry at all, the binary64 rounding of the
    ratio and of the difference included. *)
Theorem tall_phone_ratio_is_accepted (platform : string)
    (imageSize : ImageSize) (st : State) :
  own_or_absent platform ->
  0 < img_width imageSize ->
  6203 * img_width imageSize <= 3000 * img_height imageSize
  <= 6797 * img_width imageSize ->
  aspectAudit platform imageSize st = Ok st.
Proof.
  intros Hown Hw Hband. unfold aspectAudit, isStandard.
  destruct (PLATFORM_TEMPLATES platform) as [[template|]|] eqn:Ht.
  - destruct (registry_ratios _ _ Ht) as [_ Hin].
    assert (E : existsb (near (ratio_of imageSize)) (aspectRatios template)
                = true).
    { apply existsb_exists. exists (Finite R195). split; [exact Hin|].
      unfold ratio_of. now apply close_is_near. }
    now rewrite E.
  - now elim Hown.
  - reflexivity.
Qed.

Lemma tall_phone_ratio_is_accepted_witness :
  aspectAudit "PhonePe" {| img_width := 1080; img_height := 2340 |} initial
  = Ok initial.
Proof.
  apply tall_phone_ratio_is_accepted.
  - discriminate.
  - reflexivity.
  - simpl. lia.
Defined.

(** ** GPS coordinates *)

(** X11. GPS coordinates never weigh on the verdict: when a result is
    returned for a metadata bag, one is returned for every bag that differs
    only in its coordinates (and has no latitude without its longitude),
    with the same score, risk level, layout verdict, anomalies, explanation
    and advice. *)
Theorem gps_never_changes_verdict (mode : ScanMode) (md1 md2 : Metadata)
    (imageSize : ImageSize) (country : Country) (platform : option string)
    (base64Image : option string) (gw : Gateway VisionReply)
    (r1 : ScanResult) :
  same_but_gps md1 md2 ->
  gps_pair_complete (Some md2) ->
  analyzeForensics mode (Some md1) imageSize country platform base64Image gw
  = Ok r1 ->
  exists r2,
    analyzeForensics mode (Some md2) imageSize country platform
      base64Image gw = Ok r2
    /\ score r1 = score r2
    /\ riskLevel r1 = riskLevel r2
    /\ layoutCheck r1 = layoutCheck r2
    /\ anomalies r1 = anomalies r2
    /\ explanation r1 = explanation r2
    /\ advice r1 = advice r2.
Proof.
  intros [Hsw [Hts [Hex [Hsc [Hmk Hmo]]]]] Hg2 E.
  destruct (heuristics (Some md1) imageSize (platform_or_default platform))
    as [h1|e] eqn:Eh1.
  2:{ unfold analyzeForensics in E. rewrite Eh1 in E. discriminate. }
  pose proof (heuristics_returns _ _ _ _ Eh1) as [Hg1 Hown].
  destruct (heuristics_closed_form (Some md1) imageSize
              (platform_or_default platform) (conj Hg1 Hown))
    as [h1' [E1 [Hs1 [_ [Ha1 Hl1]]]]].
  assert (h1' = h1) by congruence. subst h1'.
  destruct (heuristics_closed_form (Some md2) imageSize
              (platform_or_default platform) (conj Hg2 Hown))
    as [h2 [E2 [Hs2 [_ [Ha2 Hl2]]]]].
  assert (Hs : st_score h1 = st_score h2).
  { rewrite Hs1, Hs2. unfold tool_detected, timestamp_altered,
      exif_contradiction. now rewrite Hsw, Hts, Hex, Hsc, Hmk, Hmo. }
  rewrite (analyzeForensics_branches _ _ _ _ _ _ _ _ E1) in E.
  rewrite (analyzeForensics_branches _ _ _ _ _ _ _ _ E2).
  destruct (deepVision base64Image gw) as [aiResult|];
    injection E as <-; eexists; (split; [reflexivity|]).
  - cbn. rewrite Hs, Ha1, Ha2. repeat split.
  - unfold fallbackResult, fallbackLayout. rewrite Hl1, Hl2. cbn.
    rewrite Hs, Ha1, Ha2. repeat split.
Qed.

Lemma gps_never_changes_verdict_witness :
  exists r1 r2,
    analyzeForensics mode_image (Some canva_located) hd_portrait "France"
      (Some "PayPal") None Rejected = Ok r1
    /\ analyzeForensics mode_image (Some canva_metadata) hd_portrait "France"
         (Some "PayPal") None Rejected = Ok r2
    /\ score r1 = score r2
    /\ riskLevel r1 = riskLevel r2.
Proof.
  eexists.
  edestruct (gps_never_changes_verdict mode_image canva_located
               canva_metadata hd_portrait "France" (Some "PayPal") None
               Rejected) as [r2 [E2 [Hs [Hr _]]]].
  - repeat split.
  - simpl. intros H. now elim H.
  - vm_compute. reflexivity.
  - exists r2. split; [vm_compute; reflexivity|].
    split; [exact E2|]. split; [exact Hs | exact Hr].
Defined.

(** ** Reasons of the forensic results *)

Lemma first_occurrences_NoDup_id (l : list string) :
  NoDup l -> first_occurrences l = l.
Proof.
  induction 1 as [|a l Hnin Hnd IH]; simpl; [reflexivity|].
  rewrite IH. f_equal.
  clear IH Hnd. induction l as [|b t IHt]; simpl; [reflexivity|].
  destruct (String.eqb_spec a b) as [->|Hne].
  - exfalso. apply Hnin. now left.
  - simpl. f_equal. apply IHt. intros H. apply Hnin. now right.
Qed.

Lemma heuristic_reasons_NoDup
    (metadata : option Metadata) (imageSize : ImageSize) (platform : string)
    (st : State) :
  heuristics metadata imageSize platform = Ok st -> NoDup (st_reasons st).
Proof.
  intros E.
  destruct (heuristics_closed_form metadata imageSize platform
              (heuristics_returns _ _ _ _ E)) as [st' [E' [_ [Hr _]]]].
  assert (st' = st) by congruence. subst st'. rewrite Hr.
  destruct (tool_detected metadata) as [sw|],
    (timestamp_altered metadata), (exif_contradiction metadata),
    (gps_coordinates metadata) as [[lat lon]|],
    (geometry_mismatch platform imageSize); simpl;
    repeat (constructor;
            [ simpl; intros H;
              repeat (destruct H as [H|H]; [discriminate H|]); exact H |]);
    constructor.
Qed.

(** X12. In every forensic result the heuristic reasons come first, all of
    them and in rule order, followed by the reasons of the reply that are
    new, each once; without a deep-vision result the reasons are the
    heuristic ones as they are. *)
Theorem heuristic_reasons_lead (mode : ScanMode)
    (metadata : option Metadata) (imageSize : ImageSize) (country : Country)
    (platform : option string) (base64Image : option string)
    (gw : Gateway VisionReply) (hst : State) :
  heuristics metadata imageSize (platform_or_default platform) = Ok hst ->
  exists r,
    analyzeForensics mode metadata imageSize country platform base64Image gw
    = Ok r
    /\ (forall aiResult,
          deepVision base64Image gw = Some aiResult ->
          reasons r
          = Some (st_reasons hst
                  ++ fresh (st_reasons hst) (or_nil (aiReasons aiResult)))%list)
    /\ (deepVision base64Image gw = None ->
        reasons r = Some (st_reasons hst)).
Proof.
  intros Eh.
  pose proof (heuristic_reasons_NoDup _ _ _ _ Eh) as Hnd.
  assert (Hid : spread_new_Set (st_reasons hst) = st_reasons hst).
  { rewrite spread_new_Set_first_occurrences.
    now apply first_occurrences_NoDup_id. }
  rewrite (analyzeForensics_branches _ _ _ _ _ _ _ _ Eh).
  destruct (deepVision base64Image gw) as [aiResult|];
    eexists; (split; [reflexivity|]); split; try discriminate.
  - intros a Ha. injection Ha as <-.
    cbn [reasons visionResult visionMerge st_reasons]. f_equal.
    unfold spread_new_Set in *. rewrite fold_left_app, Hid.
    apply fold_set_add.
  - intros _. unfold fallbackResult. cbn [reasons].
    now rewrite fallbackLayout_reasons, Hid.
Qed.

Lemma heuristic_reasons_lead_witness :
  exists r,
    analyzeForensics mode_payment (Some canva_metadata) hd_portrait "India"
      (Some "PhonePe") jpeg_image (Replied echoing_reply) = Ok r
    /\ reasons r
       = Some [ "Modification Signature: File processed via Canva 2.1.";
                "Geometric Mismatch: Screenshot dimensions do not match the PhonePe standard.";
                "Font weights differ." ].
Proof.
  edestruct (heuristic_reasons_lead mode_payment (Some canva_metadata)
               hd_portrait "India" (Some "PhonePe") jpeg_image
               (Replied echoing_reply)) as [r [E [Hai _]]]; [(vm_compute; reflexivity)|].
  exists r. split; [exact E|].
  rewrite (Hai echoing_reply eq_refl). (vm_compute; reflexivity).
Defined.

Lemma forensic_reasons_distinct_witness :
  exists r l,
    analyzeForensics mode_payment (Some canva_metadata) hd_portrait "India"
      (Some "PhonePe") jpeg_image (Replied echoing_reply) = Ok r
    /\ reasons r = Some l
    /\ NoDup l.
Proof.
  edestruct (forensic_reasons_distinct mode_payment (Some canva_metadata)
               hd_portrait "India" (Some "PhonePe") jpeg_image
               (Replied echoing_reply)) as [r [l [E [Hl [Hnd _]]]]];
    [(vm_compute; reflexivity)|].
  exists r, l. repeat split; assumption.
Defined.

(** ** The editing-tool pattern *)

Lemma lower_lower (c : ascii) : lower (lower c) = lower c.
Proof.
  destruct c as [[] [] [] [] [] [] [] []]; reflexivity.
Qed.

Lemma lower_str_idempotent (s : string) :
  lower_str (lower_str s) = lower_str s.
Proof.
  induction s as [|c s IH]; simpl; [reflexivity|].
  now rewrite lower_lower, IH.
Qed.

Lemma lower_str_app (s t : string) :
  lower_str (s ++ t) = lower_str s ++ lower_str t.
Proof.
  induction s as [|c s IH]; simpl; [reflexivity|]. now rewrite IH.
Qed.

Lemma string_app_assoc (a b c : string) : (a ++ b) ++ c = a ++ b ++ c.
Proof.
  induction a as [|x a IH]; simpl; [reflexivity|]. now rewrite IH.
Qed.

(** X14. The tool pattern ignores the case of ASCII letters and looks for
    its words anywhere: folding the capitals of a software string does not
    change the outcome, and a string that matches still matches with any
    text put before and after it. *)
Theorem tool_pattern_is_substring_search (s pre post : string) :
  manipulationTools_test (lower_str s) = manipulationTools_test s
  /\ (manipulationTools_test s = true ->
      manipulationTools_test (pre ++ s ++ post) = true).
Proof.
  split.
  - destruct (manipulationTools_test (lower_str s)) eqn:E1,
      (manipulationTools_test s) eqn:E2; try reflexivity.
    + apply manipulationTools_test_spec in E1.
      unfold names_editing_tool in E1. rewrite lower_str_idempotent in E1.
      apply manipulationTools_test_spec in E1. congruence.
    + apply manipulationTools_test_spec in E2.
      unfold names_editing_tool in E2.
      rewrite <- lower_str_idempotent in E2.
      apply manipulationTools_test_spec in E2. congruence.
  - intros H. apply manipulationTools_test_spec in H.
    destruct H as [w [a [b [Hin Hs]]]].
    apply manipulationTools_test_spec. exists w.
    exists (lower_str pre ++ a), (b ++ lower_str post).
    split; [exact Hin|].
    rewrite !lower_str_app, Hs, !string_app_assoc. reflexivity.
Qed.

Lemma tool_pattern_is_substring_search_witness :
  manipulationTools_test ("MS " ++ "PAINT" ++ " 11.2") = true.
Proof.
  apply (tool_pattern_is_substring_search "PAINT" "MS " " 11.2").
  (vm_compute; reflexivity).
Defined.

(** ** Shape of the forensic results *)

(** X15. Every result of [analyzeForensics] has all its fields set: a
    non-empty explanation, a list of reasons, two or three tips of advice, a
    non-empty layout verdict that is never left at "N/A" by the fallback, and
    a list of anomalies, which is the reply's list as it is, or empty. *)
Theorem forensic_result_is_complete (mode : ScanMode)
    (metadata : option Metadata) (imageSize : ImageSize) (country : Country)
    (platform : option string) (base64Image : option string)
    (gw : Gateway VisionReply) (r : ScanResult) :
  analyzeForensics mode metadata imageSize country platform base64Image gw
  = Ok r ->
  (exists e, explanation r = Some e /\ e <> "")
  /\ (exists l, reasons r = Some l)
  /\ (exists a, advice r = Some a /\ (2 <= List.length a <= 3)%nat)
  /\ (exists v, layoutCheck r = Some v /\ v <> ""
                /\ (deepVision base64Image gw = None -> v <> "N/A"))
  /\ anomalies r
     = Some match deepVision base64Image gw with
            | Some aiResult => or_nil (detectedAnomalies aiResult)
            | None => []
            end.
Proof.
  intros E.
  destruct (heuristics metadata imageSize (platform_or_default platform))
    as [hst|e] eqn:Eh.
  2:{ unfold analyzeForensics in E. rewrite Eh in E. discriminate. }
  destruct (heuristics_closed_form metadata imageSize
              (platform_or_default platform) (heuristics_returns _ _ _ _ Eh))
    as [st' [E' [_ [_ [Ha Hl]]]]].
  assert (st' = hst) by congruence. subst st'.
  rewrite (analyzeForensics_branches _ _ _ _ _ _ _ _ Eh) in E.
  destruct (deepVision base64Image gw) as [aiResult|]; injection E as <-.
  - cbn. rewrite Ha. repeat split.
    + eexists. split; [reflexivity|]. unfold or_str.
      destruct (aiExplanation aiResult) as [[|c s]|]; simpl; discriminate.
    + eexists. reflexivity.
    + eexists. split; [reflexivity|]. simpl. lia.
    + eexists. split; [reflexivity|]. split; [|discriminate].
      unfold or_str.
      destruct (layoutStatus aiResult) as [[|c s]|]; simpl; discriminate.
  - unfold fallbackResult, fallbackLayout. rewrite Hl. cbn. rewrite Ha.
    repeat split.
    + eexists. split; [reflexivity | discriminate].
    + eexists. reflexivity.
    + eexists. split; [reflexivity|]. simpl. lia.
    + eexists. split; [reflexivity|].
      destruct (st_score hst >? 60); [split; intros; discriminate|].
      destruct (st_score hst >? 25); split; intros; discriminate.
Qed.

Lemma forensic_result_is_complete_witness :
  exists r,
    analyzeForensics mode_payment (Some canva_metadata) hd_portrait "India"
      (Some "PhonePe") jpeg_image (Replied empty_VisionReply) = Ok r
    /\ anomalies r = Some [].
Proof.
  eexists. split; [(vm_compute; reflexivity)|].
  apply (forensic_result_is_complete mode_payment (Some canva_metadata)
           hd_portrait "India" (Some "PhonePe") jpeg_image
           (Replied empty_VisionReply)).
  (vm_compute; reflexivity).
Defined.

(** ** The text path against the link path *)

(** X16. For one and the same score of the remote model, the text path and
    the link path give the same risk level, and the text path returns the
    smaller of that score and 100 where the link path returns the score as
    it is; the two scores agree exactly when it is at most 100. *)
Theorem text_caps_where_link_does_not (text url : string)
    (country : Country) (tr : TextReply) (lr : LinkReply) :
  all_space text = false ->
  t_score tr = l_score lr ->
  exists rt rl,
    analyzeText text country (Replied tr) = Ok rt
    /\ analyzeLink url country (Replied lr) = Ok rl
    /\ riskLevel rt = riskLevel rl
    /\ score rl = or_zero (l_score lr)
    /\ score rt = Z.min (score rl) 100
    /\ (score rt = score rl <-> or_zero (l_score lr) <= 100).
Proof.
  intros H Hs. unfold analyzeText, analyzeLink, trim_is_empty. rewrite H, Hs.
  eexists. eexists. split; [reflexivity|]. split; [reflexivity|].
  cbn. repeat split; lia.
Qed.

Lemma text_caps_where_link_does_not_witness :
  exists rt rl,
    analyzeText "Claim your prize" "India"
      (Replied (text_reply_scoring (Some 250))) = Ok rt
    /\ analyzeLink "http://prize.example" "India"
         (Replied (link_reply_scoring (Some 250))) = Ok rl
    /\ score rt = 100 /\ score rl = 250.
Proof.
  destruct (text_caps_where_link_does_not "Claim your prize"
              "http://prize.example" "India" (text_reply_scoring (Some 250))
              (link_reply_scoring (Some 250)))
    as [rt [rl [Et [El [_ [Hl [Ht _]]]]]]]; [(vm_compute; reflexivity) | (vm_compute; reflexivity) |].
  exists rt, rl. split; [exact Et|]. split; [exact El|].
  rewrite Ht, Hl. split; reflexivity.
Defined.

(** ** The image data sent to the remote model *)

Lemma split_comma_nonempty (s : string) : split_comma s <> [].
Proof.
  destruct s as [|c t]; simpl; [discriminate|].
  destruct (Ascii.eqb c ","); [discriminate|].
  destruct (split_comma t); discriminate.
Qed.

Lemma split_comma_no_comma (s : string) :
  has_comma s = false -> split_comma s = [s].
Proof.
  induction s as [|c t IH]; simpl; [reflexivity|].
  destruct (Ascii.eqb c ","); simpl; [discriminate|].
  intros H. now rewrite (IH H).
Qed.

Lemma split_comma_app (a b : string) :
  has_comma a = false ->
  split_comma (a ++ "," ++ b) = a :: split_comma b.
Proof.
  induction a as [|c t IH]; simpl; [reflexivity|].
  destruct (Ascii.eqb c ",") eqn:E; simpl; [discriminate|].
  intros H. specialize (IH H). simpl in IH. now rewrite IH.
Qed.

(** X17. The image data handed to the remote model is what stands between
    the first and the second comma of [base64Image]: the payload of a data
    URL, cut at a further comma if there is one, and [undefined] when the
    string has no comma at all. *)
Theorem base64Data_is_second_piece (header payload rest s : string) :
  has_comma header = false ->
  has_comma payload = false ->
  base64Data (header ++ "," ++ payload) = Some payload
  /\ base64Data (header ++ "," ++ payload ++ "," ++ rest) = Some payload
  /\ (has_comma s = false -> base64Data s = None).
Proof.
  intros Hh Hp. unfold base64Data. split; [|split].
  - rewrite (split_comma_app _ _ Hh), (split_comma_no_comma _ Hp).
    reflexivity.
  - rewrite (split_comma_app _ _ Hh), (split_comma_app _ _ Hp).
    reflexivity.
  - intros Hs. now rewrite (split_comma_no_comma _ Hs).
Qed.

Lemma base64Data_is_second_piece_witness :
  base64Data ("data:image/jpeg;base64" ++ "," ++ "/9j/4AAQ") = Some "/9j/4AAQ".
Proof.
  apply (base64Data_is_second_piece "data:image/jpeg;base64" "/9j/4AAQ" "" "");
    (vm_compute; reflexivity).
Defined.

(** Joining the pieces of [split(',')] with commas gives the string back,
    and no piece contains a comma. *)
Lemma split_comma_join (s : string) :
  join "," (split_comma s) = s
  /\ Forall (fun piece => has_comma piece = false) (split_comma s).
Proof.
  induction s as [|c t [IHj IHf]]; simpl.
  - split; [reflexivity | now repeat constructor].
  - destruct (Ascii.eqb_spec c ","%char) as [->|Hne].
    + split.
      * pose proof (split_comma_nonempty t) as Hn.
        destruct (split_comma t) as [|p r]; [contradiction|].
        cbn [join]. simpl in *. now rewrite IHj.
      * constructor; [reflexivity | exact IHf].
    + pose proof (split_comma_nonempty t) as Hn.
      destruct (split_comma t) as [|p r]; [contradiction|].
      split.
      * destruct r as [|q r']; simpl in *; now rewrite IHj.
      * inversion IHf as [|? ? Hp Hr]; subst. constructor; [|exact Hr].
        simpl. apply Ascii.eqb_neq in Hne. now rewrite Hne.
Qed.

(** * Properties of [geminiService.ts] *)

Import GeminiService.

Lemma field_last (k : string) (v : JsValue) (o : Obj) :
  field k (o ++ [(k, v)])%list = Some v.
Proof.
  unfold field. rewrite rev_app_distr. simpl. now rewrite String.eqb_refl.
Qed.

Lemma push_link_fold (l : list GroundingChunk) (acc : list Link) :
  fold_left push_link l acc
  = (acc ++ flat_map (fun c => push_link [] c) l)%list.
Proof.
  revert acc; induction l as [|c l IH]; intros acc; simpl.
  - now rewrite app_nil_r.
  - rewrite IH. unfold push_link.
    destruct (web c); simpl; rewrite <- ?app_assoc; reflexivity.
Qed.

(** ** Grounding links *)

(** X18. The grounding links are the web sources of the grounding chunks,
    one link per chunk that has a web source, in the order of the chunks,
    each with its address as it came, the type "web" and a title that is
    never empty; a response without chunks gives no link. *)
Theorem grounding_links_follow_chunks (response : ContentResponse) :
  let chunks := match chunks_of response with Some l => l | None => [] end in
  let sources := flat_map (fun c => match web c with
                                    | Some w => [w] | None => [] end) chunks in
  let links := links_of (chunks_of response) in
  map link_uri links = map uri sources
  /\ map link_title links
     = map (fun w => or_str (title w) "External Intelligence Report") sources
  /\ Forall (fun l => link_title l <> "" /\ link_type l = "web") links
  /\ (List.length links <= List.length chunks)%nat.
Proof.
  intros chunks sources links. subst chunks sources links.
  unfold links_of. destruct (chunks_of response) as [l|].
  2:{ simpl. repeat split; [constructor | lia]. }
  rewrite push_link_fold. simpl.
  induction l as [|c l [IH1 [IH2 [IH3 IH4]]]]; simpl.
  - repeat split; [constructor | lia].
  - unfold push_link at 1 3 5 7. destruct (web c) as [w|]; simpl.
    + rewrite IH1, IH2. repeat split.
      * constructor; [|exact IH3]. simpl. split; [|reflexivity].
        unfold or_str. destruct (title w) as [[|a s]|]; simpl; discriminate.
      * lia.
    + repeat split; try assumption. lia.
Qed.

(** ** What [analyzeContent] raises and what it returns *)

(** X19. [analyzeContent] raises in two cases only: the remote call is
    rejected, and the rejection reaches the caller as it is; or the reply
    parses to [null], and reading its verdict throws a [TypeError]. A reply
    that is not JSON at all does not raise. *)
Theorem analyzeContent_raises (SUSPICIOUS MEDIUM : JsValue)
    (remote : ContentRequest -> Attempt ContentResponse)
    (content : string) (countries : list string) (inputType : InputType)
    (imageData : option string) (useSearch : bool) (e : Raise) :
  analyzeContent SUSPICIOUS MEDIUM remote content countries inputType
    imageData useSearch = Raised e
  <->
  remote (contentRequest content countries inputType imageData) = Raised e
  \/ exists response,
       remote (contentRequest content countries inputType imageData)
       = Done response
       /\ (parsed response = Some JNull \/ parsed response = Some JUndefined)
       /\ e = JsTypeError.
Proof.
  unfold analyzeContent, response_object.
  destruct (remote (contentRequest content countries inputType imageData))
    as [response|e0]; simpl.
  2:{ split; [intros H; injection H as <-; now left|].
      intros [H|[r [Hr _]]]; [now injection H as <- | discriminate Hr]. }
  assert (Hback : forall r : ContentResponse,
             Done response = Done r -> r = response)
    by (intros r Hr; now injection Hr).
  destruct (parsed response) as [v|] eqn:Ep; [destruct v|]; simpl; split;
    try discriminate;
    try (intros [H|[r [Hr [[H|H] _]]]];
         [ discriminate H
         | apply Hback in Hr; subst r; rewrite Ep in H; discriminate H
         | apply Hback in Hr; subst r; rewrite Ep in H; discriminate H ]).
  - intros H. injection H as <-. right. exists response. auto.
  - intros [H|[r [_ [_ H]]]]; [discriminate H | now subst].
  - intros H. injection H as <-. right. exists response. auto.
  - intros [H|[r [_ [_ H]]]]; [discriminate H | now subst].
Qed.

Lemma analyzeContent_raises_witness :
  analyzeContent (JStr "SUSPICIOUS") (JStr "Medium")
    (remote_replying (Some JNull)) "Pay now" ["India"] "TEXT" None false
  = Raised JsTypeError.
Proof.
  apply (proj2 (analyzeContent_raises (JStr "SUSPICIOUS") (JStr "Medium")
                  (remote_replying (Some JNull)) "Pay now" ["India"] "TEXT"
                  None false JsTypeError)).
  right. eexists. split; [(vm_compute; reflexivity)|]. split; [left; reflexivity|].
  (vm_compute; reflexivity).
Defined.

(** X20. Whatever the reply contains, the returned object carries the
    input type, the country context, an empty SEO helper and the grounding
    links computed here, and a verdict and a risk level that are the reply's
    when truthy and the defaults otherwise; a reply that is not JSON gets
    both defaults. *)
Theorem analyzeContent_fixed_fields (SUSPICIOUS MEDIUM : JsValue)
    (remote : ContentRequest -> Attempt ContentResponse)
    (content : string) (countries : list string) (inputType : InputType)
    (imageData : option string) (useSearch : bool)
    (response : ContentResponse) (o : Obj) :
  remote (contentRequest content countries inputType imageData)
  = Done response ->
  analyzeContent SUSPICIOUS MEDIUM remote content countries inputType
    imageData useSearch = Done o ->
  field "inputTypeDetected" o = Some (JStr inputType)
  /\ field "countryContext" o = Some (JStr (countryContext countries))
  /\ field "seoHelper" o
     = Some (JObj [("keywords", JArr []); ("faqs", JArr [])])
  /\ field "groundingLinks" o
     = Some (JArr (map link_value (links_of (chunks_of response))))
  /\ (exists v, field "verdict" o = Some (js_or v SUSPICIOUS)
                /\ (forall props, parsed response = Some (JObj props) ->
                      v = match field "verdict" props with
                          | Some a => a | None => JUndefined end))
  /\ (exists v, field "riskLevel" o = Some (js_or v MEDIUM)
                /\ (forall props, parsed response = Some (JObj props) ->
                      v = match field "riskLevel" props with
                          | Some a => a | None => JUndefined end))
  /\ (parsed response = None ->
      field "verdict" o = Some SUSPICIOUS
      /\ field "riskLevel" o = Some MEDIUM).
Proof.
  intros Er E. unfold analyzeContent in E. rewrite Er in E.
  unfold response_object in E.
  destruct (read "verdict" _) as [verdict|] eqn:Ev; [|discriminate].
  destruct (read "riskLevel" _) as [riskLevel|] eqn:El.
  2:{ destruct (parsed response) as [[]|]; discriminate. }
  injection E as <-.
  unfold field. rewrite !rev_app_distr.
  repeat split; try reflexivity.
  - exists verdict. split; [reflexivity|].
    intros props Hp. rewrite Hp in Ev. simpl in Ev. now injection Ev as <-.
  - exists riskLevel. split; [reflexivity|].
    intros props Hp. rewrite Hp in El. simpl in El. now injection El as <-.
  - rewrite H in Ev. simpl in Ev. now injection Ev as <-.
  - rewrite H in El. simpl in El. now injection El as <-.
Qed.

Lemma analyzeContent_fixed_fields_witness :
  exists o,
    analyzeContent (JStr "SUSPICIOUS") (JStr "Medium")
      (remote_replying (Some scam_reply)) "Pay now" ["India"; "Kenya"] "TEXT"
      None false = Done o
    /\ field "verdict" o = Some (JStr "SCAM")
    /\ field "riskLevel" o = Some (JStr "Medium")
    /\ field "groundingLinks" o = Some (JArr []).
Proof.
  eexists. split; [(vm_compute; reflexivity)|].
  destruct (analyzeContent_fixed_fields (JStr "SUSPICIOUS") (JStr "Medium")
              (remote_replying (Some scam_reply)) "Pay now"
              ["India"; "Kenya"] "TEXT" None false
              {| parsed := Some scam_reply; candidates := None |}
              _ eq_refl eq_refl)
    as [_ [_ [_ [Hg _]]]].
  split; [(vm_compute; reflexivity)|]. split; [(vm_compute; reflexivity)|]. exact Hg.
Defined.

(** X21. Every other property of a reply that is an object is handed on
    unchanged: the object returned is the reply, with the six fields above
    set or replaced. *)
Theorem analyzeContent_passes_reply_on (SUSPICIOUS MEDIUM : JsValue)
    (remote : ContentRequest -> Attempt ContentResponse)
    (content : string) (countries : list string) (inputType : InputType)
    (imageData : option string) (useSearch : bool)
    (response : ContentResponse) (props : Obj) (k : string) :
  remote (contentRequest content countries inputType imageData)
  = Done response ->
  parsed response = Some (JObj props) ->
  ~ In k ["verdict"; "riskLevel"; "inputTypeDetected"; "countryContext";
          "seoHelper"; "groundingLinks"] ->
  exists o,
    analyzeContent SUSPICIOUS MEDIUM remote content countries inputType
      imageData useSearch = Done o
    /\ field k o = field k props.
Proof.
  intros Er Hp Hk. unfold analyzeContent. rewrite Er, Hp.
  unfold response_object. cbn [read spread].
  eexists. split; [reflexivity|].
  unfold field. rewrite rev_app_distr. cbn [rev app assoc].
  repeat match goal with
         | |- context [String.eqb k ?s] =>
             let E := fresh "E" in
             destruct (String.eqb_spec k s) as [E|E];
             [exfalso; apply Hk; rewrite E; simpl; tauto|]
         end.
  reflexivity.
Qed.

Lemma analyzeContent_passes_reply_on_witness :
  exists o,
    analyzeContent (JStr "SUSPICIOUS") (JStr "Medium")
      (remote_replying (Some scam_reply)) "Pay now" ["India"] "TEXT"
      None false = Done o
    /\ field "redFlags" o = Some (JArr [JStr "Urgency"]).
Proof.
  destruct (analyzeContent_passes_reply_on (JStr "SUSPICIOUS") (JStr "Medium")
              (remote_replying (Some scam_reply)) "Pay now" ["India"] "TEXT"
              None false {| parsed := Some scam_reply; candidates := None |}
              [ ("verdict", JStr "SCAM"); ("riskLevel", JStr "");
                ("redFlags", JArr [JStr "Urgency"]);
                ("groundingLinks", JStr "spoofed") ]
              "redFlags" eq_refl eq_refl) as [o [E Hf]].
  - simpl. intros H.
    repeat (destruct H as [H|H]; [discriminate H|]). exact H.
  - exists o. split; [exact E|]. rewrite Hf. (vm_compute; reflexivity).
Defined.

(** ** [generateSafetyImage] *)

Lemma first_image_skips (before after : list Part) (p : Part) :
  Forall (fun q => inlineData q = None) before ->
  first_image (before ++ p :: after) = first_image (p :: after).
Proof.
  induction 1 as [|q l Hq _ IH]; simpl; [reflexivity|]. now rewrite Hq.
Qed.

(** X22. [generateSafetyImage] returns the first part of the first
    candidate that carries inline data, as a PNG data URL, whatever comes
    after it; when no part carries inline data (or there is no candidate,
    content or part at all) it throws "Visual generation failed."; and a
    rejection of the remote call reaches the caller as it is. *)
Theorem generateSafetyImage_first_inline_part
    (remote : ImageRequest -> Attempt ImageResponse)
    (params : ImageGenParams) :
  (forall e, remote (imageRequest params) = Raised e ->
             generateSafetyImage remote params = Raised e)
  /\ (forall response before p d after,
         remote (imageRequest params) = Done response ->
         parts_of response = (before ++ p :: after)%list ->
         Forall (fun q => inlineData q = None) before ->
         inlineData p = Some d ->
         generateSafetyImage remote params
         = Done ("data:image/png;base64," ++ interpolate (data d)))
  /\ (forall response,
         remote (imageRequest params) = Done response ->
         Forall (fun q => inlineData q = None) (parts_of response) ->
         generateSafetyImage remote params
         = Raised (PlainError "Visual generation failed.")).
Proof.
  unfold generateSafetyImage. split; [|split].
  - intros e H. now rewrite H.
  - intros response before p d after Hr Hp Hb Hd. rewrite Hr, Hp.
    rewrite (first_image_skips _ _ _ Hb). simpl. now rewrite Hd.
  - intros response Hr Hall. rewrite Hr.
    induction Hall as [|q l Hq _ IH]; simpl; [reflexivity|]. now rewrite Hq.
Qed.

Lemma generateSafetyImage_first_inline_part_witness :
  generateSafetyImage
    (remote_painting [text_part; image_part "iVBORw0KGgo"; image_part "AAAA"])
    poster_2K
  = Done "data:image/png;base64,iVBORw0KGgo"
  /\ generateSafetyImage (remote_painting [text_part]) poster_2K
     = Raised (PlainError "Visual generation failed.").
Proof.
  split.
  - destruct (generateSafetyImage_first_inline_part
                (remote_painting
                   [text_part; image_part "iVBORw0KGgo"; image_part "AAAA"])
                poster_2K) as [_ [H _]].
    eapply (H _ [text_part] (image_part "iVBORw0KGgo")
              {| data := Some "iVBORw0KGgo" |} [image_part "AAAA"]);
      try reflexivity.
    repeat constructor.
  - destruct (generateSafetyImage_first_inline_part
                (remote_painting [text_part]) poster_2K) as [_ [_ H]].
    eapply H; [(vm_compute; reflexivity)|]. repeat constructor.
Defined.

(** X23. A successful [generateSafetyImage] always returns a string that
    starts with "data:image/png;base64,", and it succeeds exactly when the
    remote call does and some part carries inline data. *)
Theorem generateSafetyImage_succeeds_iff
    (remote : ImageRequest -> Attempt ImageResponse)
    (params : ImageGenParams) :
  (forall url, generateSafetyImage remote params = Done url ->
               exists payload, url = "data:image/png;base64," ++ payload)
  /\ ((exists url, generateSafetyImage remote params = Done url) <->
      exists response,
        remote (imageRequest params) = Done response
        /\ Exists (fun q => inlineData q <> None) (parts_of response)).
Proof.
  unfold generateSafetyImage.
  destruct (remote (imageRequest params)) as [response|e].
  2:{ split; [discriminate|]. split.
      - intros [url H]; discriminate.
      - intros [r [H _]]; discriminate. }
  assert (Hfi : forall l,
             (forall url, first_image l = Done url ->
                exists payload, url = "data:image/png;base64," ++ payload)
             /\ ((exists url, first_image l = Done url) <->
                 Exists (fun q => inlineData q <> None) l)).
  { induction l as [|q l [IH1 IH2]]; simpl.
    - split; [discriminate|]. split.
      + intros [url H]; discriminate.
      + intros H. inversion H.
    - destruct (inlineData q) as [d|] eqn:Eq.
      + split.
        * intros url H. injection H as <-. now eexists.
        * split; [|intros _; now eexists].
          intros _. apply Exists_cons_hd. rewrite Eq. discriminate.
      + split; [exact IH1|]. rewrite IH2. split.
        * intros H. now apply Exists_cons_tl.
        * intros H. inversion H as [? ? Hq|? ? Ht]; subst; [|exact Ht].
          now elim Hq. }
  destruct (Hfi (parts_of response)) as [H1 H2].
  split; [exact H1|]. rewrite H2. split.
  - intros H. now exists response.
  - intros [r [Hr H]]. now injection Hr as <-.
Qed.

Lemma generateSafetyImage_succeeds_iff_witness :
  exists url,
    generateSafetyImage (remote_painting [text_part; image_part "AAAA"])
      poster_2K = Done url.
Proof.
  apply (proj2 (proj2 (generateSafetyImage_succeeds_iff
                         (remote_painting [text_part; image_part "AAAA"])
                         poster_2K))).
  eexists. split; [(vm_compute; reflexivity)|].
  apply Exists_cons_tl. apply Exists_cons_hd. discriminate.
Defined.

(** X24. The request for an image carries an [imageSize] only for the sizes
    2K and 4K, and then goes to the pro image model; every other size goes
    to the flash image model without an [imageSize]. *)
Theorem imageRequest_size_and_model (params : ImageGenParams) :
  let request := imageRequest params in
  (imageSize params = "2K" \/ imageSize params = "4K" ->
   i_model request = "gemini-3-pro-image-preview"
   /\ cfg_imageSize (i_imageConfig request) = Some (imageSize params))
  /\ (imageSize params <> "2K" -> imageSize params <> "4K" ->
      i_model request = "gemini-2.5-flash-image"
      /\ cfg_imageSize (i_imageConfig request) = None)
  /\ cfg_aspectRatio (i_imageConfig request) = aspectRatio params.
Proof.
  unfold imageRequest, isHighRes. cbn.
  destruct (String.eqb_spec (imageSize params) "2K") as [E2|E2],
    (String.eqb_spec (imageSize params) "4K") as [E4|E4]; cbn;
    repeat split; try reflexivity; try tauto; try congruence;
    intros; try tauto; congruence.
Qed.

Lemma imageRequest_size_and_model_witness :
  i_model (imageRequest poster_2K) = "gemini-3-pro-image-preview"
  /\ cfg_imageSize (i_imageConfig (imageRequest poster_2K)) = Some "2K".
Proof.
  apply (imageRequest_size_and_model poster_2K). left. (vm_compute; reflexivity).
Defined.
